(** * Urban Price Radar: the client-side logic, embedded and verified

    The React front end fetches one static dataset and derives everything
    else from it synchronously.  This development embeds the pure logic of

    - [App.jsx]        (dataset fetch, area projection, update badge),
    - [PriceBadge.jsx] (marker density, render mode, price formatting),
    - [SearchBar.jsx]  (search suggestions),
    - [Filters.jsx]    (mode toggle and budget presets)

    as Rocq functions, one module per source file, and proves the
    properties stated for them.

    Conventions.  A [useState] cell is a record field and a setter call is
    a record update; an event handler is a function from state to state.
    An optional JS value ([null], [undefined], a missing key) is an
    [option]; a JS object used as a dictionary is a [gmap] with string
    keys.  A JS string is a [string] read one character per code unit,
    so [String.length] is [.length]; text that is only displayed (the
    rupee sign) is kept as its UTF-8 bytes.
    Built-ins of the host whose full definition is outside the
    repository (date parsing, locale formatting, Unicode case mapping) are
    [Variable]s of a section, so every result holds for any host. *)

From Stdlib Require Import ZArith QArith String Ascii List Lia Bool.
From Stdlib Require Import Floats.SpecFloat.
From Stdlib Require Import Numbers.DecimalString Numbers.DecimalPos.
From stdpp Require Import gmap strings list.

Local Open Scope Z_scope.

(** ** Data model (the shape of [prices.json]) *)

(** A price cell [{min, max, confidence}].  Amounts are whole numbers of
    the currency unit; a JSON integer below [2^53] is an exact double and
    on those values the JS comparisons are the integer ones. *)
Module PriceBand.
Record t : Type := { min : Z; max : Z; confidence : string }.
End PriceBand.

(** A budget preset of [Filters.jsx]. *)
Module BudgetPreset.
Record t : Type :=
  { label : string; fullLabel : string; min : Z; max : Z; color : string }.
End BudgetPreset.

(** The two values the [mode] state ever takes: ['buy'] and ['rent']. *)
Inductive Mode : Type := Buy | Rent.

Definition Mode_eqb (a b : Mode) : bool :=
  match a, b with
  | Buy, Buy | Rent, Rent => true
  | _, _ => false
  end.

(** An area of the dataset.  [buy] and [rent] are the objects keyed by
    property type (['1rk'], ['1bhk'], ['2bhk'], ['3bhk_plus']); either may
    be missing, and so may any key. *)
Record AreaRecord : Type := {
  id : Z;
  name : string;
  region : option string;
  lat : Q;
  lng : Q;
  zoom_level : string;
  buy : option (gmap string PriceBand.t);
  rent : option (gmap string PriceBand.t)
}.

Record Dataset : Type := {
  version : string;
  generated_at : option string;
  disclaimer : option string;
  areas : list AreaRecord
}.

(** Truthiness of a string-or-null value: [null] and [''] are falsy. *)
Definition truthy (s : option string) : bool :=
  match s with
  | None => false
  | Some s => negb (String.eqb s "")
  end.

(** The names every object literal inherits from [Object.prototype].
    Reading one of them from a table such as [TYPICAL_SIZES] or
    [MAP_TILES] yields a function (for [__proto__], an object), never
    [undefined]. *)
Definition Object_prototype_keys : list string :=
  [ "constructor"; "__defineGetter__"; "__defineSetter__";
    "hasOwnProperty"; "__lookupGetter__"; "__lookupSetter__";
    "isPrototypeOf"; "propertyIsEnumerable"; "toString"; "valueOf";
    "__proto__"; "toLocaleString" ]%string.

Definition inherited_key (key : string) : bool :=
  existsb (String.eqb key) Object_prototype_keys.

(** Decimal rendering of an integer, as a template literal prints it. *)
Definition string_of_Z (z : Z) : string := NilZero.string_of_int (Z.to_int z).

(** ** App.jsx *)
Module App.

(** *** State: the [useState] cells of [App] *)
Record AppState : Type := {
  priceData : option Dataset;
  loading : bool;
  error : option string;
  mode : Mode;
  propertyType : string;
  budgetRange : option BudgetPreset.t;
  priceUnit : string
}.

Definition initial : AppState :=
  {| priceData := None; loading := true; error := None;
     mode := Buy; propertyType := "2bhk"; budgetRange := None;
     priceUnit := "total" |}.

Definition setPriceData (d : Dataset) (s : AppState) : AppState :=
  {| priceData := Some d; loading := loading s; error := error s;
     mode := mode s; propertyType := propertyType s;
     budgetRange := budgetRange s; priceUnit := priceUnit s |}.

Definition setLoading (b : bool) (s : AppState) : AppState :=
  {| priceData := priceData s; loading := b; error := error s;
     mode := mode s; propertyType := propertyType s;
     budgetRange := budgetRange s; priceUnit := priceUnit s |}.

Definition setError (e : string) (s : AppState) : AppState :=
  {| priceData := priceData s; loading := loading s; error := Some e;
     mode := mode s; propertyType := propertyType s;
     budgetRange := budgetRange s; priceUnit := priceUnit s |}.

Definition setMode (m : Mode) (s : AppState) : AppState :=
  {| priceData := priceData s; loading := loading s; error := error s;
     mode := m; propertyType := propertyType s;
     budgetRange := budgetRange s; priceUnit := priceUnit s |}.

Definition setPropertyType (t : string) (s : AppState) : AppState :=
  {| priceData := priceData s; loading := loading s; error := error s;
     mode := mode s; propertyType := t;
     budgetRange := budgetRange s; priceUnit := priceUnit s |}.

Definition setBudgetRange (b : option BudgetPreset.t) (s : AppState)
  : AppState :=
  {| priceData := priceData s; loading := loading s; error := error s;
     mode := mode s; propertyType := propertyType s;
     budgetRange := b; priceUnit := priceUnit s |}.

Definition setPriceUnit (u : string) (s : AppState) : AppState :=
  {| priceData := priceData s; loading := loading s; error := error s;
     mode := mode s; propertyType := propertyType s;
     budgetRange := budgetRange s; priceUnit := u |}.

(** *** fetchPrices *)

(** What [fetch(API_URL)] and [response.json()] can do: the request
    rejects, or a response arrives with its [ok] flag and a body that
    either parses to the dataset or makes [json()] reject. *)
Inductive FetchOutcome : Type :=
  | FetchRejected (message : string)
  | FetchResponse (ok : bool) (json : string + Dataset).

(** The [try] block up to the first [await]. *)
Definition fetchPrices_start (s : AppState) : AppState := setLoading true s.

(** The rest of [try], then [catch] and [finally]. *)
Definition fetchPrices_settle (o : FetchOutcome) (s : AppState) : AppState :=
  let s' :=
    match o with
    | FetchRejected message => setError message s
    | FetchResponse false _ => setError "Failed to fetch price data" s
    | FetchResponse true (inl message) => setError message s
    | FetchResponse true (inr data) => setPriceData data s
    end in
  setLoading false s'.

Definition fetchPrices (o : FetchOutcome) (s : AppState) : AppState :=
  fetchPrices_settle o (fetchPrices_start s).

(** *** filteredAreas: the area projection *)

(** An area decorated for one render.  [withinBudget] is not set on the
    branch that finds no price cell. *)
Record ProjectedArea : Type := {
  area : AreaRecord;
  visible : bool;
  priceRange : option PriceBand.t;
  withinBudget : option bool
}.

(** [area[mode]] *)
Definition area_mode (a : AreaRecord) (m : Mode)
  : option (gmap string PriceBand.t) :=
  match m with Buy => buy a | Rent => rent a end.

(** [area[mode]?.[propertyType]] *)
Definition price_cell (a : AreaRecord) (m : Mode) (t : string)
  : option PriceBand.t :=
  match area_mode a m with
  | None => None
  | Some cells => cells !! t
  end.

(** The callback of [priceData.areas.map]. *)
Definition projectArea (m : Mode) (t : string)
  (budget : option BudgetPreset.t) (a : AreaRecord) : ProjectedArea :=
  match price_cell a m t with
  | None =>
    {| area := a; visible := false; priceRange := None;
       withinBudget := None |}
  | Some prices =>
    let within :=
      match budget with
      | Some b =>
          let areaMin := PriceBand.min prices in
          let areaMax := PriceBand.max prices in
          (areaMin <=? BudgetPreset.max b)
          && (areaMax >=? BudgetPreset.min b)
      | None => true
      end in
    {| area := a; visible := within; priceRange := Some prices;
       withinBudget := Some within |}
  end.

(** [priceData?.areas?.map(...) || []] *)
Definition filteredAreas (s : AppState) : list ProjectedArea :=
  match priceData s with
  | None => []
  | Some d =>
    List.map (projectArea (mode s) (propertyType s) (budgetRange s))
      (areas d)
  end.

(** The two counts handed to [DataInfo]. *)
Definition visibleCount (s : AppState) : nat :=
  length (List.filter visible (filteredAreas s)).

Definition totalCount (s : AppState) : nat := length (filteredAreas s).

(** *** formatUpdateDate and DataInfo *)

Section UpdateDate.
(** The host's [Date]: parsing a string to a time value in
    milliseconds ([None] is the NaN of an invalid date), the current
    time, the local year of a time value and the en-IN rendering of a
    valid date with or without its year. *)
Variable Date_parse : string -> option Z.
Variable Date_now : Z.
Variable Date_getFullYear : Z -> Z.
Variable Date_toLocaleDateString_valid : Z -> bool -> string.

(** [Date.prototype.toLocaleDateString]: an invalid date is rendered
    as the string "Invalid Date"; nothing is thrown. *)
Definition Date_toLocaleDateString (date : option Z) (year : bool)
  : string :=
  match date with
  | None => "Invalid Date"
  | Some tv => Date_toLocaleDateString_valid tv year
  end.

(** [===] and [<] between a possibly-NaN number and a constant: every
    comparison with NaN is false. *)
Definition num_eqb (x : option Z) (k : Z) : bool :=
  match x with Some v => v =? k | None => false end.

Definition num_ltb (x : option Z) (k : Z) : bool :=
  match x with Some v => v <? k | None => false end.

(** [date.getFullYear() !== now.getFullYear()] *)
Definition year_differs (date : option Z) : bool :=
  match date with
  | Some tv => negb (Date_getFullYear tv =? Date_getFullYear Date_now)
  | None => true
  end.

(** No call in the [try] block throws for any input, so the [catch]
    branch contributes no case.  Time values are whole milliseconds:
    [Math.floor] of the quotient by the day length is the integer
    quotient. *)
Definition formatUpdateDate (dateString : option string) : option string :=
  if negb (truthy dateString) then None
  else
    let date := from_option Date_parse None dateString in
    let diffDays :=
      match date with
      | Some tv => Some ((Date_now - tv) / (1000 * 60 * 60 * 24))
      | None => None
      end in
    if num_eqb diffDays 0 then Some "Today"
    else if num_eqb diffDays 1 then Some "Yesterday"
    else if num_ltb diffDays 7 then
      Some (string_of_Z (default 0 diffDays) +:+ " days ago")
    else Some (Date_toLocaleDateString date (year_differs date)).

(** The spans [DataInfo] renders; [update_badge] is the optional
    "Updated ..." badge. *)
Record DataInfoView : Type := {
  update_badge : option string;
  count_text : string;
  version_text : string
}.

Definition DataInfo (version : string) (generatedAt : option string)
    (visibleCount totalCount : nat) : DataInfoView :=
  let updateDate := formatUpdateDate generatedAt in
  {| update_badge :=
       if truthy updateDate
       then Some ("Updated " +:+ default "" updateDate) else None;
     count_text :=
       string_of_Z (Z.of_nat visibleCount) +:+ " / "
       +:+ string_of_Z (Z.of_nat totalCount) +:+ " areas";
     version_text := "v" +:+ version |}.
End UpdateDate.

(** *** The render guards of [App] *)
Inductive View : Type :=
  | LoadingView
  | ErrorView (message : string)
  | MainView (markers : list ProjectedArea) (visibleCount totalCount : nat).

Definition render (s : AppState) : View :=
  if loading s then LoadingView
  else if truthy (error s) then ErrorView (default "" (error s))
  else MainView (filteredAreas s) (visibleCount s) (totalCount s).

(** The "Try Again" button of the error view: [onClick={fetchPrices}]. *)
Definition retry : FetchOutcome -> AppState -> AppState := fetchPrices.

(** *** Theme *)

(** The initialiser of the [theme] cell in a browser: [saved] is
    [localStorage.getItem('theme')] and [prefersDark] the answer of the
    [(prefers-color-scheme: dark)] media query. *)
Definition initialTheme (saved : option string) (prefersDark : bool)
  : string :=
  if truthy saved then default "" saved
  else if prefersDark then "dark" else "light".

(** The updater of [toggleTheme]. *)
Definition toggleTheme (prev : string) : string :=
  if String.eqb prev "dark" then "light" else "dark".

End App.

(** ** JS numbers: IEEE 754 binary64

  [price / 100000], [toFixed] and [Math.round] work on doubles, and the
  digits they print depend on how the quotient was rounded, so numbers
  are the binary64 values of the Standard Library's [SpecFloat] and the
  built-ins follow ECMA-262 on the exact value of the double. *)
Module JSNumber.

Definition number : Type := spec_float.

Definition prec : Z := 53.
Definition emax : Z := 1024.

(** The double of an integer literal or JSON integer. *)
Definition of_Z (z : Z) : number := binary_normalize prec emax z 0 false.

(** The [/] operator. *)
Definition div (x y : number) : number := SFdiv prec emax x y.

(** [floor (k * m * 2^e + 1/2)] for a magnitude [m * 2^e], exactly:
    the integer nearest to [k] times the magnitude, the larger one on
    a tie. *)
Definition nearest_scaled (k : Z) (m : positive) (e : Z) : Z :=
  if 0 <=? e then k * Z.pos m * 2 ^ e
  else (2 * k * Z.pos m + 2 ^ (- e)) / 2 ^ (- e + 1).

(** [10^21 <= m * 2^e], exactly. *)
Definition ge_1e21 (m : positive) (e : Z) : bool :=
  if 0 <=? e then 10 ^ 21 <=? Z.pos m * 2 ^ e
  else 10 ^ 21 * 2 ^ (- e) <=? Z.pos m.

(** Whether [m * 2^e] is an integer, and that integer. *)
Definition is_integral (m : positive) (e : Z) : bool :=
  if 0 <=? e then true else Z.pos m mod 2 ^ (- e) =? 0.

Definition integral_value (m : positive) (e : Z) : Z :=
  if 0 <=? e then Z.pos m * 2 ^ e else Z.pos m / 2 ^ (- e).

Fixpoint zeros (k : nat) : string :=
  match k with
  | O => ""
  | S k => "0" +:+ zeros k
  end.

(** Steps 10.b-c of [Number.prototype.toFixed]: pad the digits [m] of
    [n] to [f + 1] characters and put the point before the last [f]. *)
Definition insert_point (m : string) (f : nat) : string :=
  if Nat.eqb f 0 then m
  else
    let k := String.length m in
    let m := if Nat.leb k f then zeros (f + 1 - k) +:+ m else m in
    let k := String.length m in
    substring 0 (k - f) m +:+ "." +:+ substring (k - f) f m.

(** The text of the non-negative integer [n] read with [f] decimals. *)
Definition fixed_digits (n : Z) (f : nat) : string :=
  insert_point (string_of_Z n) f.

Section Host.
(** [Number::toString] of a finite value that is not an integer below
    [10^21] needs the shortest digits that round-trip; that printer is
    the host's. *)
Variable Number_toString_host : number -> string.

(** [Number::toString(x, 10)], as a template literal applies it. *)
Definition Number_toString (x : number) : string :=
  match x with
  | S754_nan => "NaN"
  | S754_zero _ => "0"
  | S754_infinity s => if s then "-Infinity" else "Infinity"
  | S754_finite s m e =>
      if is_integral m e && negb (ge_1e21 m e)
      then (if s then "-" else "") +:+ string_of_Z (integral_value m e)
      else Number_toString_host x
  end.

(** [x.toFixed(f)] *)
Definition toFixed (x : number) (f : nat) : string :=
  match x with
  | S754_nan | S754_infinity _ => Number_toString x
  | S754_zero _ => fixed_digits 0 f
  | S754_finite s m e =>
      (if s then "-" else "")
      +:+ (if ge_1e21 m e
           then Number_toString (S754_finite false m e)
           else fixed_digits (nearest_scaled (10 ^ Z.of_nat f) m e) f)
  end.
End Host.

(** [Math.round(x)]: the integral double nearest to [x], the one
    towards [+∞] on a tie; a double with a non-negative exponent is
    integral already, and a result of magnitude zero keeps the sign. *)
Definition Math_round (x : number) : number :=
  match x with
  | S754_finite s m e =>
    if 0 <=? e then x
    else
      let r :=
        if s then - ((2 * Z.pos m + 2 ^ (- e) - 1) / 2 ^ (- e + 1))
        else nearest_scaled 1 m e in
      if r =? 0 then S754_zero s else of_Z r
  | _ => x
  end.

(** [x >= y]; false when either side is NaN. *)
Definition geb (x y : number) : bool := SFleb y x.

(** The second half of [binary_round_aux]: renormalise the rounded
    mantissa and pack. *)
Definition round_finish (s : bool) (m1 e : Z) : spec_float :=
  let '(mrs, e') := shr_fexp prec emax m1 e loc_Exact in
  match shr_m mrs with
  | Z0 => S754_zero s
  | Z.pos m =>
      if e' <=? emax - prec then S754_finite s m e' else S754_infinity s
  | Z.neg _ => S754_nan
  end.

(** Rounding [q + r / y] to an integer, to nearest and to even on a
    tie. *)
Definition rne (q r y : Z) : Z :=
  match 2 * r ?= y with
  | Lt => q
  | Eq => if Z.even q then q else q + 1
  | Gt => q + 1
  end.

End JSNumber.

(** ** Leaflet: what the code asks of the map *)
Module Leaflet.

(** A call [map.flyTo([lat, lng], zoom, { duration })]. *)
Record FlyTo : Type := { center : Q * Q; zoom : Q; duration : Q }.

(** The argument of a [divIcon] call, up to markup: the wrapper's
    [className], the class list of the inner [div] in source order (an
    empty string where the template interpolates one), the texts inside
    it in source order, and the two size options. *)
Record DivIcon : Type := {
  className : string;
  classes : list string;
  texts : list string;
  iconSize : Z * Z;
  iconAnchor : Z * Z
}.

End Leaflet.

(** ** PriceBadge.jsx *)
Module PriceBadge.
Import JSNumber.

Section Host.
Variable Number_toString_host : number -> string.

(** The numeric operands are written as in the source: the price is a
    whole amount, compared as such, and enters [/] as its double. *)
Definition formatPrice (price : Z) (isRent : bool) : string :=
  if isRent then
    if price >=? 100000 then
      "₹" +:+ toFixed Number_toString_host
                (div (of_Z price) (of_Z 100000)) 1 +:+ "L"
    else
      "₹" +:+ Number_toString Number_toString_host
                (Math_round (div (of_Z price) (of_Z 1000))) +:+ "K"
  else if price >=? 10000000 then
    "₹" +:+ toFixed Number_toString_host
              (div (of_Z price) (of_Z 10000000)) 1 +:+ "Cr"
  else
    "₹" +:+ toFixed Number_toString_host
              (div (of_Z price) (of_Z 100000)) 0 +:+ "L".
End Host.

(** *** The helpers above the component *)

Definition TYPICAL_SIZES : gmap string Z :=
  {[ "1rk"%string := 350; "1bhk"%string := 550; "2bhk"%string := 850;
     "3bhk_plus"%string := 1400 ]}.

(** [TYPICAL_SIZES[propertyType] || 850] as the operand of [/]: the four
    sizes are truthy, a missing key is [undefined] and falls back, and
    an inherited name yields an object, which [/] reads as NaN. *)
Definition typical_size (propertyType : string) : number :=
  if inherited_key propertyType then S754_nan
  else of_Z (default 850 (TYPICAL_SIZES !! propertyType)).

Section HostFormats.
Variable Number_toString_host : number -> string.

Definition formatPricePerSqft (price : Z) (propertyType : string)
  (isRent : bool) : string :=
  let size := typical_size propertyType in
  let perSqft := Math_round (div (of_Z price) size) in
  if isRent then "₹" +:+ Number_toString Number_toString_host perSqft
  else if geb perSqft (of_Z 100000) then
    "₹" +:+ toFixed Number_toString_host (div perSqft (of_Z 1000)) 0
    +:+ "K"
  else if geb perSqft (of_Z 10000) then
    "₹" +:+ toFixed Number_toString_host (div perSqft (of_Z 1000)) 1
    +:+ "K"
  else "₹" +:+ Number_toString Number_toString_host perSqft.

Definition formatPriceCompact (price : Z) (priceUnit propertyType : string)
  : string :=
  if String.eqb priceUnit "sqft" then
    let size := typical_size propertyType in
    let perSqft := Math_round (div (of_Z price) size) in
    if geb perSqft (of_Z 10000) then
      toFixed Number_toString_host (div perSqft (of_Z 1000)) 0 +:+ "K"
    else
      toFixed Number_toString_host (div perSqft (of_Z 1000)) 1 +:+ "K"
  else if price >=? 10000000 then
    let cr := div (of_Z price) (of_Z 10000000) in
    if geb cr (of_Z 10) then
      Number_toString Number_toString_host (Math_round cr) +:+ "Cr"
    else toFixed Number_toString_host cr 1 +:+ "Cr"
  else if price >=? 100000 then
    Number_toString Number_toString_host
      (Math_round (div (of_Z price) (of_Z 100000))) +:+ "L"
  else
    Number_toString Number_toString_host
      (Math_round (div (of_Z price) (of_Z 1000))) +:+ "K".
End HostFormats.

Definition getConfidenceClass (confidence : string) : string :=
  if String.eqb confidence "high" then "confidence-high"
  else if String.eqb confidence "medium" then "confidence-medium"
  else if String.eqb confidence "low" then "confidence-low"
  else "confidence-medium".

Definition getPriceTier (price : Z) : string :=
  if price >=? 20000000 then "tier-ultra"
  else if price >=? 12000000 then "tier-premium"
  else if price >=? 8000000 then "tier-high"
  else if price >=? 5000000 then "tier-mid"
  else "tier-affordable".

Definition getConfidenceTooltip (confidence : string) : string :=
  if String.eqb confidence "high" then "Strong consensus across sources"
  else if String.eqb confidence "medium" then "Multiple recent listings"
  else if String.eqb confidence "low" then "Sparse or inconsistent listings"
  else "".

Definition getTargetZoom (zoomLevel : string) (currentZoom : Q) : Q :=
  if String.eqb zoomLevel "country" then 8
  else if String.eqb zoomLevel "state" then 11
  else if String.eqb zoomLevel "city" then 12
  else if String.eqb zoomLevel "region" then 14
  else if String.eqb zoomLevel "area" then 14
  else if String.eqb zoomLevel "micro" then 16
  else (currentZoom + 2)%Q.

(** *** The marker of one projected area

    [currentZoom] is the map's zoom, a number that need not be whole;
    [isHovered] is the marker's hover state. *)

(** [shouldShow] *)
Definition shouldShow (a : App.ProjectedArea) (currentZoom : Q) : bool :=
  if negb (App.visible a) then false
  else
    let zoomLevel := zoom_level (App.area a) in
    if String.eqb zoomLevel "country" then negb (Qle_bool 7 currentZoom)
    else if String.eqb zoomLevel "state" then
      Qle_bool 7 currentZoom && negb (Qle_bool 10 currentZoom)
    else if String.eqb zoomLevel "city" then negb (Qle_bool 11 currentZoom)
    else if String.eqb zoomLevel "region" then Qle_bool 11 currentZoom
    else if String.eqb zoomLevel "area" then Qle_bool 11 currentZoom
    else if String.eqb zoomLevel "micro" then Qle_bool 14 currentZoom
    else false.

(** [['city', 'state', 'country'].includes(area.zoom_level)] *)
Definition is_sparse_tier (zoomLevel : string) : bool :=
  existsb (String.eqb zoomLevel) ["city"; "state"; "country"]%string.

(** [showAsDot] *)
Definition showAsDot (a : App.ProjectedArea) (currentZoom : Q)
  (isHovered : bool) : bool :=
  if is_sparse_tier (zoom_level (App.area a)) then false
  else if Qle_bool 14 currentZoom then false
  else negb isHovered.

(** The two shapes of [icon]: the dot ([price-dot-wrapper]) and the
    expanded badge ([price-badge-wrapper]). *)
Inductive IconKind : Type := DotIcon | BadgeIcon.

(** [icon], up to the HTML inside: [null] without price data. *)
Definition icon (a : App.ProjectedArea) (currentZoom : Q)
  (isHovered : bool) : option IconKind :=
  match App.priceRange a with
  | None => None
  | Some _ =>
    Some (if showAsDot a currentZoom isHovered then DotIcon
          else BadgeIcon)
  end.

(** What [PriceBadge] returns: nothing when [!shouldShow || !icon],
    else a marker with the icon. *)
Definition PriceBadge (a : App.ProjectedArea) (currentZoom : Q)
  (isHovered : bool) : option IconKind :=
  if negb (shouldShow a currentZoom) then None
  else icon a currentZoom isHovered.

(** *** The icon in full, and the click *)

(** [area.withinBudget ? '' : 'outside-budget']; the flag is
    [undefined], hence falsy, on an entry without a price cell. *)
Definition visibilityClass (a : App.ProjectedArea) : string :=
  if default false (App.withinBudget a) then "" else "outside-budget".

Definition levelClass (zoomLevel : string) : string :=
  if String.eqb zoomLevel "city" then "city-level"
  else if String.eqb zoomLevel "state" then "state-level"
  else if String.eqb zoomLevel "country" then "country-level"
  else "".

(** The [iconSize] and [iconAnchor] of the badge. *)
Definition badgeSize (zoomLevel : string) : (Z * Z) * (Z * Z) :=
  if String.eqb zoomLevel "city" then ((130, 55), (65, 27))
  else if String.eqb zoomLevel "state" then ((120, 50), (60, 25))
  else if String.eqb zoomLevel "country" then ((110, 48), (55, 24))
  else ((130, 55), (65, 27)).

Section HostIcon.
Variable Number_toString_host : number -> string.

(** The value of [icon]: what is handed to [divIcon], or [null].
    [icon] above is its shape. *)
Definition divIcon (a : App.ProjectedArea) (mode : Mode)
  (propertyType priceUnit : string) (currentZoom : Q) (isHovered : bool)
  : option Leaflet.DivIcon :=
  match App.priceRange a with
  | None => None
  | Some priceData =>
    let isRent := Mode_eqb mode Rent in
    let priceTier := getPriceTier (PriceBand.min priceData) in
    let confidenceClass :=
      getConfidenceClass (PriceBand.confidence priceData) in
    if showAsDot a currentZoom isHovered then
      let priceLabel :=
        formatPriceCompact Number_toString_host (PriceBand.min priceData)
          priceUnit propertyType in
      Some {| Leaflet.className := "price-dot-wrapper";
              Leaflet.classes :=
                ["price-dot"; priceTier; confidenceClass;
                 visibilityClass a]%string;
              Leaflet.texts := [priceLabel];
              Leaflet.iconSize := (36, 36);
              Leaflet.iconAnchor := (18, 18) |}
    else
      let sqft := String.eqb priceUnit "sqft" in
      let minPrice :=
        if sqft then
          formatPricePerSqft Number_toString_host (PriceBand.min priceData)
            propertyType isRent
        else formatPrice Number_toString_host (PriceBand.min priceData)
               isRent in
      let maxPrice :=
        if sqft then
          formatPricePerSqft Number_toString_host (PriceBand.max priceData)
            propertyType isRent
        else formatPrice Number_toString_host (PriceBand.max priceData)
               isRent in
      let unitLabel := if sqft then "/sqft" else "" in
      let zoomLevel := zoom_level (App.area a) in
      Some {| Leaflet.className := "price-badge-wrapper";
              Leaflet.classes :=
                ["price-badge"; confidenceClass; visibilityClass a;
                 levelClass zoomLevel;
                 if isHovered then "hovered" else ""]%string;
              Leaflet.texts :=
                [name (App.area a);
                 minPrice +:+ " - " +:+ maxPrice +:+ unitLabel;
                 PriceBand.confidence priceData];
              Leaflet.iconSize := fst (badgeSize zoomLevel);
              Leaflet.iconAnchor := snd (badgeSize zoomLevel) |}
  end.

(** The marker [PriceBadge] returns, in full. *)
Definition Marker (a : App.ProjectedArea) (mode : Mode)
  (propertyType priceUnit : string) (currentZoom : Q) (isHovered : bool)
  : option Leaflet.DivIcon :=
  if negb (shouldShow a currentZoom) then None
  else divIcon a mode propertyType priceUnit currentZoom isHovered.
End HostIcon.

(** [handleClick]: the flight a click on the marker asks for. *)
Definition handleClick (a : App.ProjectedArea) (currentZoom : Q)
  : Leaflet.FlyTo :=
  let targetZoom := getTargetZoom (zoom_level (App.area a)) currentZoom in
  {| Leaflet.center := (lat (App.area a), lng (App.area a));
     Leaflet.zoom := targetZoom;
     Leaflet.duration := 8 # 10 |}.

End PriceBadge.

(** ** Filters.jsx *)
Module Filters.

Definition preset (label fullLabel : string) (min max : Z) (color : string)
  : BudgetPreset.t :=
  {| BudgetPreset.label := label; BudgetPreset.fullLabel := fullLabel;
     BudgetPreset.min := min; BudgetPreset.max := max;
     BudgetPreset.color := color |}.

Definition BUY_BUDGETS : list BudgetPreset.t :=
  [ preset "<50L" "Under ₹50L" 0 5000000 "#10b981";
    preset "50-80L" "₹50L - 80L" 5000000 8000000 "#3b82f6";
    preset "80L-1.2Cr" "₹80L - 1.2Cr" 8000000 12000000 "#f59e0b";
    preset "1.2-2Cr" "₹1.2Cr - 2Cr" 12000000 20000000 "#ef4444";
    preset "2Cr+" "₹2Cr+" 20000000 999999999 "#a855f7" ].

Definition RENT_BUDGETS : list BudgetPreset.t :=
  [ preset "<20K" "Under ₹20K" 0 20000 "#10b981";
    preset "20-40K" "₹20K - 40K" 20000 40000 "#3b82f6";
    preset "40-70K" "₹40K - 70K" 40000 70000 "#f59e0b";
    preset "70K-1L" "₹70K - 1L" 70000 100000 "#ef4444";
    preset "1L+" "₹1L+" 100000 999999999 "#a855f7" ].

(** [const budgets = isRent ? RENT_BUDGETS : BUY_BUDGETS], with
    [isRent={mode === 'rent'}]. *)
Definition budgets (s : App.AppState) : list BudgetPreset.t :=
  if Mode_eqb (App.mode s) Rent then RENT_BUDGETS else BUY_BUDGETS.

(** [budgetRange?.min === budget.min && budgetRange?.max === budget.max]:
    with no range set both sides compare [undefined] to a number. *)
Definition isBudgetActive (budgetRange : option BudgetPreset.t)
  (budget : BudgetPreset.t) : bool :=
  match budgetRange with
  | None => false
  | Some r =>
    (BudgetPreset.min r =? BudgetPreset.min budget)
    && (BudgetPreset.max r =? BudgetPreset.max budget)
  end.

Definition handleBudgetClick (budget : BudgetPreset.t) (s : App.AppState)
  : App.AppState :=
  if match App.budgetRange s with
     | None => false
     | Some r =>
         (BudgetPreset.min r =? BudgetPreset.min budget)
         && (BudgetPreset.max r =? BudgetPreset.max budget)
     end
  then App.setBudgetRange None s
  else App.setBudgetRange (Some budget) s.

(** The buttons of the panel that write the filter state.  (The expand
    button only flips the panel's own [expanded] flag.) *)
Inductive Click : Type :=
  | ClickBuy
  | ClickRent
  | ClickPropertyType (value : string)
  | ClickBudget (budget : BudgetPreset.t)
  | ClickClear
  | ClickTotal
  | ClickSqft.

(** The [onClick] handler of each button. *)
Definition onClick (c : Click) (s : App.AppState) : App.AppState :=
  match c with
  | ClickBuy => App.setBudgetRange None (App.setMode Buy s)
  | ClickRent => App.setBudgetRange None (App.setMode Rent s)
  | ClickPropertyType value => App.setPropertyType value s
  | ClickBudget budget => handleBudgetClick budget s
  | ClickClear => App.setBudgetRange None s
  | ClickTotal => App.setPriceUnit "total" s
  | ClickSqft => App.setPriceUnit "sqft" s
  end.

(** A session at the panel: clicks applied in order. *)
Definition run (cs : list Click) (s : App.AppState) : App.AppState :=
  fold_left (fun s c => onClick c s) cs s.

End Filters.

(** ** SearchBar.jsx *)
Module SearchBar.

(** [s.includes(q)]: [q] occurs in [s] as a contiguous run. *)
Fixpoint includes (s q : string) : bool :=
  if String.prefix q s then true
  else
    match s with
    | EmptyString => false
    | String _ s' => includes s' q
    end.

Section Host.
(** [String.prototype.trim] and [String.prototype.toLowerCase]. *)
Variable trim : string -> string.
Variable toLowerCase : string -> string.

(** The predicate of [areas.filter]; a missing [region] makes the
    optional chain [undefined], which [filter] reads as false. *)
Definition matches (q : string) (area : AreaRecord) : bool :=
  includes (toLowerCase (name area)) q
  || match region area with
     | Some r => includes (toLowerCase r) q
     | None => false
     end.

(** The effect on [[query, areas]]: the value it leaves in
    [suggestions]. *)
Definition suggestions (query : string) (areas : list AreaRecord)
  : list AreaRecord :=
  if (String.length (trim query) <? 2)%nat then []
  else
    let q := toLowerCase query in
    firstn 8 (List.filter (matches q) areas).
End Host.

(** *** The price shown beside a suggestion *)
Section NumberHost.
Variable Number_toString_host : JSNumber.number -> string.

Definition formatPrice (price : Z) : string :=
  if price >=? 10000000 then
    "₹" +:+ JSNumber.toFixed Number_toString_host
              (JSNumber.div (JSNumber.of_Z price) (JSNumber.of_Z 10000000)) 1
    +:+ "Cr"
  else if price >=? 100000 then
    "₹" +:+ JSNumber.toFixed Number_toString_host
              (JSNumber.div (JSNumber.of_Z price) (JSNumber.of_Z 100000)) 0
    +:+ "L"
  else
    "₹" +:+ JSNumber.Number_toString Number_toString_host
              (JSNumber.Math_round
                 (JSNumber.div (JSNumber.of_Z price) (JSNumber.of_Z 1000)))
    +:+ "K".

(** [getAreaPrice]: [null] without [area.buy?.['2bhk']]. *)
Definition getAreaPrice (area : AreaRecord) : option string :=
  match App.price_cell area Buy "2bhk" with
  | Some buyPrice =>
      Some (formatPrice (PriceBand.min buyPrice) +:+ " - "
            +:+ formatPrice (PriceBand.max buyPrice))
  | None => None
  end.
End NumberHost.

(** *** The search box as a state machine *)

(** The four [useState] cells of [SearchBar]. *)
Module State.
Record t : Type := {
  query : string;
  isOpen : bool;
  suggestions : list AreaRecord;
  selectedIndex : Z
}.
End State.

Definition initial : State.t :=
  {| State.query := ""; State.isOpen := false; State.suggestions := [];
     State.selectedIndex := -1 |}.

Definition setQuery (q : string) (s : State.t) : State.t :=
  {| State.query := q; State.isOpen := State.isOpen s;
     State.suggestions := State.suggestions s;
     State.selectedIndex := State.selectedIndex s |}.

Definition setIsOpen (b : bool) (s : State.t) : State.t :=
  {| State.query := State.query s; State.isOpen := b;
     State.suggestions := State.suggestions s;
     State.selectedIndex := State.selectedIndex s |}.

Definition setSuggestions (l : list AreaRecord) (s : State.t) : State.t :=
  {| State.query := State.query s; State.isOpen := State.isOpen s;
     State.suggestions := l;
     State.selectedIndex := State.selectedIndex s |}.

Definition setSelectedIndex (i : Z) (s : State.t) : State.t :=
  {| State.query := State.query s; State.isOpen := State.isOpen s;
     State.suggestions := State.suggestions s;
     State.selectedIndex := i |}.

(** What the user can do to the box: type (or paste) a new value, focus
    the input, press a key in it, click the [index]-th suggestion, click
    the clear button, press the mouse outside the box. *)
Inductive Event : Type :=
  | Change (value : string)
  | Focus
  | KeyDown (key : string)
  | ClickSuggestion (index : nat)
  | ClickClear
  | ClickOutside.

(** A handler's result: the next state and the calls of [onSelect] it
    made, each with its argument ([None] for [undefined]). *)
Definition Result : Type := State.t * list (option AreaRecord).

(** [handleSelect]; the argument is whatever the caller passes. *)
Definition handleSelect (area : option AreaRecord) (s : State.t) : Result :=
  (setSuggestions [] (setIsOpen false (setQuery "" s)), [area]).

(** [handleKeyDown]; [suggestions[selectedIndex]] is [undefined] when
    the index is past the end. *)
Definition handleKeyDown (key : string) (s : State.t) : Result :=
  let n := Z.of_nat (length (State.suggestions s)) in
  if n =? 0 then (s, [])
  else if String.eqb key "ArrowDown" then
    let prev := State.selectedIndex s in
    (setSelectedIndex (if prev <? n - 1 then prev + 1 else 0) s, [])
  else if String.eqb key "ArrowUp" then
    let prev := State.selectedIndex s in
    (setSelectedIndex (if 0 <? prev then prev - 1 else n - 1) s, [])
  else if String.eqb key "Enter" then
    if State.selectedIndex s >=? 0 then
      handleSelect
        (State.suggestions s !! Z.to_nat (State.selectedIndex s)) s
    else (s, [])
  else if String.eqb key "Escape" then (setIsOpen false s, [])
  else (s, []).

Definition handleClear (s : State.t) : State.t :=
  setSuggestions [] (setQuery "" s).

(** The two panels under the input. *)
Definition showsSuggestions (s : State.t) : bool :=
  State.isOpen s && (0 <? length (State.suggestions s))%nat.

Definition showsNoResults (s : State.t) : bool :=
  State.isOpen s && (2 <=? String.length (State.query s))%nat
  && (length (State.suggestions s) =? 0)%nat.

Section Session.
Variable trim : string -> string.
Variable toLowerCase : string -> string.
(** The [areas] prop: the records of the loaded dataset. *)
Variable areas : list AreaRecord.

(** The effect on [[query, areas]], as a state update: the short branch
    empties the list and leaves [selectedIndex] alone. *)
Definition effect (s : State.t) : State.t :=
  let s' :=
    setSuggestions (suggestions trim toLowerCase (State.query s) areas) s in
  if (String.length (trim (State.query s)) <? 2)%nat then s'
  else setSelectedIndex (-1) s'.

(** After a handler has run, React renders and runs the effect again
    if [query] is a different string. *)
Definition after_render (old : State.t) (r : Result) : Result :=
  if String.eqb (State.query old) (State.query (fst r)) then r
  else (effect (fst r), snd r).

(** One event.  A suggestion can be clicked only while the list is
    rendered, and the clear button only while [query] is truthy. *)
Definition step (e : Event) (s : State.t) : Result :=
  after_render s
    match e with
    | Change value => (setQuery value s, [])
    | Focus => (setIsOpen true s, [])
    | KeyDown key => handleKeyDown key s
    | ClickSuggestion index =>
        if showsSuggestions s then
          match State.suggestions s !! index with
          | Some area => handleSelect (Some area) s
          | None => (s, [])
          end
        else (s, [])
    | ClickClear =>
        if String.eqb (State.query s) "" then (s, [])
        else (handleClear s, [])
    | ClickOutside => (setIsOpen false s, [])
    end.

(** A session: the events in order, with every [onSelect] call made. *)
Fixpoint run (es : list Event) (s : State.t) : Result :=
  match es with
  | [] => (s, [])
  | e :: es =>
      let '(s1, calls1) := step e s in
      let '(s2, calls2) := run es s1 in
      (s2, calls1 ++ calls2)
  end.
End Session.

End SearchBar.

(** ** Legend.jsx *)
Module Legend.

(** [PRICE_TIERS]: label and colour. *)
Definition PRICE_TIERS : list (string * string) :=
  [ ("<50L", "#10b981"); ("50-80L", "#3b82f6"); ("80L-1.2Cr", "#f59e0b");
    ("1.2-2Cr", "#ef4444"); ("2Cr+", "#a855f7") ]%string.

End Legend.

(** ** Map.jsx *)
Module Map.

Definition MAP_TILES : gmap string string :=
  {[ "dark"%string :=
       "https://{s}.basemaps.cartocdn.com/dark_all/{z}/{x}/{y}{r}.png"%string;
     "light"%string :=
       "https://{s}.basemaps.cartocdn.com/light_all/{z}/{x}/{y}{r}.png"%string
  ]}.

(** [MAP_TILES[theme]] as the [url] of the tile layer: [None] when the
    lookup is not a string ([undefined], or an inherited member). *)
Definition tileUrl (theme : string) : option string :=
  if inherited_key theme then None else MAP_TILES !! theme.

(** Truthiness of a coordinate: zero is falsy. *)
Definition truthy_number (x : Q) : bool := negb (Qeq_bool x 0).

(** The effect of [FlyToArea] for the current [selectedArea]: the
    flight it starts, if any.  When it flies it also arms the timer
    that calls [onClear]. *)
Definition FlyToArea (selectedArea : option AreaRecord)
  : option Leaflet.FlyTo :=
  match selectedArea with
  | Some a =>
    if truthy_number (lat a) && truthy_number (lng a) then
      Some {| Leaflet.center := (lat a, lng a); Leaflet.zoom := 14;
              Leaflet.duration := 1 |}
    else None
  | None => None
  end.

(** The [selectedArea] cell of [App] once the effect and its timer have
    run: [onSelectedAreaClear] sets it to [null]. *)
Definition selection_settled (selectedArea : option AreaRecord)
  : option AreaRecord :=
  match FlyToArea selectedArea with
  | Some _ => None
  | None => selectedArea
  end.

End Map.

(** ** A host for running the examples

  Instances of the host functions on plain ASCII text, enough to run
  the functions above on sample data. *)
Module AsciiHost.

Definition is_space (c : ascii) : bool :=
  let n := nat_of_ascii c in
  ((9 <=? n) && (n <=? 13) || (n =? 32))%nat.

Fixpoint trimStart (s : string) : string :=
  match s with
  | String c s' => if is_space c then trimStart s' else s
  | EmptyString => EmptyString
  end.

Fixpoint rev_string (s acc : string) : string :=
  match s with
  | EmptyString => acc
  | String c s' => rev_string s' (String c acc)
  end.

Definition trim (s : string) : string :=
  rev_string (trimStart (rev_string (trimStart s) "")) "".

Definition lower (c : ascii) : ascii :=
  let n := nat_of_ascii c in
  if ((65 <=? n) && (n <=? 90))%nat then ascii_of_nat (n + 32) else c.

Fixpoint toLowerCase (s : string) : string :=
  match s with
  | EmptyString => EmptyString
  | String c s' => String (lower c) (toLowerCase s')
  end.

(** Dates in the form [YYYY-MM-DD], read as UTC midnight. *)
Definition digit (c : ascii) : option Z :=
  let n := Z.of_nat (nat_of_ascii c) in
  if (48 <=? n) && (n <=? 57) then Some (n - 48) else None.

Fixpoint digits (s : string) (acc : Z) : option Z :=
  match s with
  | EmptyString => Some acc
  | String c s' =>
    match digit c with
    | Some d => digits s' (10 * acc + d)
    | None => None
    end
  end.

Definition is_leap (y : Z) : bool :=
  (y mod 4 =? 0) && (negb (y mod 100 =? 0) || (y mod 400 =? 0)).

Definition days_in_month (y m : Z) : Z :=
  if m =? 2 then (if is_leap y then 29 else 28)
  else if (m =? 4) || (m =? 6) || (m =? 9) || (m =? 11) then 30
  else 31.

(** Days from 1970-01-01 to the civil date [y-m-d]. *)
Definition days_from_civil (y m d : Z) : Z :=
  let y := if m <=? 2 then y - 1 else y in
  let era := y / 400 in
  let yoe := y - era * 400 in
  let doy := (153 * (if 2 <? m then m - 3 else m + 9) + 2) / 5 + d - 1 in
  let doe := yoe * 365 + yoe / 4 - yoe / 100 + doy in
  era * 146097 + doe - 719468.

Definition Date_parse (s : string) : option Z :=
  if negb (Nat.eqb (String.length s) 10) then None
  else if negb (String.eqb (substring 4 1 s) "-"
              && String.eqb (substring 7 1 s) "-") then None
  else
    match digits (substring 0 4 s) 0, digits (substring 5 2 s) 0,
          digits (substring 8 2 s) 0 with
    | Some y, Some m, Some d =>
        if (1 <=? m) && (m <=? 12) && (1 <=? d) && (d <=? days_in_month y m)
        then Some (days_from_civil y m d * 86400000)
        else None
    | _, _, _ => None
    end.

(** The year of a time value (UTC). *)
Definition Date_getFullYear (tv : Z) : Z :=
  let z := tv / 86400000 + 719468 in
  let era := z / 146097 in
  let doe := z - era * 146097 in
  let yoe := (doe - doe / 1460 + doe / 36524 - doe / 146096) / 365 in
  let doy := doe - (365 * yoe + yoe / 4 - yoe / 100) in
  let mp := (5 * doy + 2) / 153 in
  yoe + era * 400 + (if mp <? 10 then 0 else 1).

(** A stand-in for the locale rendering: the day count since the epoch
    and, when asked for, the year. *)
Definition Date_toLocaleDateString_valid (tv : Z) (year : bool) : string :=
  "day " +:+ string_of_Z (tv / 86400000)
  +:+ (if year then " of " +:+ string_of_Z (Date_getFullYear tv) else "").

(** No example reaches the host's printer of non-integral numbers. *)
Definition Number_toString_host (x : JSNumber.number) : string := "".

End AsciiHost.

(** ** The vocabulary of the stated properties *)

(** The six tiers the resolver knows. *)
Definition known_tier (tier : string) : Prop :=
  tier ∈ ["country"; "state"; "city"; "region"; "area"; "micro"]%string.

(** A failed fetch whose error has a message. *)
Definition failure_has_message (o : App.FetchOutcome) : Prop :=
  match o with
  | App.FetchRejected message | App.FetchResponse true (inl message) =>
      message ≠ ""%string
  | _ => True
  end.

(** A click the panel can produce in state [s]: a budget button exists
    only for the presets of the current mode. *)
Definition offered (s : App.AppState) (c : Filters.Click) : Prop :=
  match c with
  | Filters.ClickBudget b => b ∈ Filters.budgets s
  | _ => True
  end.

(** The selected budget is always one of the presets of the current
    mode. *)
Definition budget_of_mode (s : App.AppState) : Prop :=
  ∀ b, App.budgetRange s = Some b → b ∈ Filters.budgets s.

(** A run of clicks, each one offered in the state it is made in. *)
Inductive offered_run : App.AppState → list Filters.Click → Prop :=
  | offered_nil s : offered_run s []
  | offered_cons s c cs :
      offered s c → offered_run (Filters.onClick c s) cs →
      offered_run s (c :: cs).

(** [s] contains [q], case-insensitively: the lower-cased [s] contains
    the lower-cased [q]. *)
Definition contains_ci (toLowerCase : string → string) (s q : string)
  : Prop :=
  ∃ pre post, toLowerCase s = pre +:+ toLowerCase q +:+ post.

(** The records the search is to return for [query]. *)
Definition Matches (toLowerCase : string → string) (query : string)
    (area : AreaRecord) : Prop :=
  contains_ci toLowerCase (name area) query
  ∨ ∃ r, region area = Some r ∧ contains_ci toLowerCase r query.

(** [round(amount / unit)]: the nearest whole number of units, the larger
    one on a tie. *)
Definition round_half_up (amount unit : Z) : Z :=
  (2 * amount + unit) / (2 * unit).

(** [n / 10] is [amount / unit] to one decimal: no multiple of a tenth
    is nearer. *)
Definition nearest_tenth (amount unit n : Z) : Prop :=
  2 * Z.abs (10 * amount - n * unit) ≤ unit.

(** The text of [n / 10] with one decimal, for a whole [n >= 0]. *)
Definition one_decimal (n : Z) : string :=
  string_of_Z (n / 10) +:+ "." +:+ string_of_Z (n mod 10).

(** ** Sample data *)

Definition cell (min max : Z) (confidence : string) : PriceBand.t :=
  {| PriceBand.min := min; PriceBand.max := max;
     PriceBand.confidence := confidence |}.

(** The area of the end-to-end example: Andheri, priced for buying a
    2BHK only. *)
Definition andheri : AreaRecord :=
  {| id := 1; name := "Andheri"; region := Some "Mumbai Western Suburbs";
     lat := 19119 # 1000; lng := 72847 # 1000; zoom_level := "area";
     buy := Some {[ "2bhk"%string := cell 8000000 12000000 "high" ]};
     rent := None |}.

Definition sample_dataset : Dataset :=
  {| version := "1"; generated_at := Some "not-a-date"%string;
     disclaimer := None; areas := [andheri] |}.

Definition loaded (d : Dataset) (m : Mode) : App.AppState :=
  App.setMode m (App.fetchPrices (App.FetchResponse true (inr d)) App.initial).

Definition marker (tier : string) (visible : bool) : App.ProjectedArea :=
  {| App.area :=
       {| id := 7; name := "Sample"; region := None; lat := 19; lng := 73;
          zoom_level := tier; buy := None; rent := None |};
     App.visible := visible;
     App.priceRange := Some (cell 8000000 12000000 "high");
     App.withinBudget := Some visible |}.

Definition place (id : Z) (name : string) (region : option string)
  : AreaRecord :=
  {| id := id; name := name; region := region; lat := 19; lng := 73;
     zoom_level := "area"; buy := None; rent := None |}.

(** Eleven places, ten of which mention Mumbai in their name or
    region. *)
Definition sample_places : list AreaRecord :=
  [ place 1 "Andheri" (Some "Mumbai Western Suburbs");
    place 2 "Navi Mumbai" None;
    place 3 "Kothrud" (Some "Pune");
    place 4 "Bandra" (Some "MUMBAI Western Suburbs");
    place 5 "Mumbai Central" (Some "South Mumbai");
    place 6 "Colaba" (Some "South Mumbai");
    place 7 "Powai" (Some "Mumbai Eastern Suburbs");
    place 8 "Dadar" (Some "mumbai");
    place 9 "Worli" (Some "South Mumbai");
    place 10 "Chembur" (Some "Mumbai Harbour");
    place 11 "Borivali" (Some "Mumbai Western Suburbs") ]%string.

(** * Properties *)

(** ** Area projection *)
Section AreaProjection.
Import App.

Variables (m : Mode) (t : string) (a : AreaRecord).

Lemma projectArea_area budget : area (projectArea m t budget a) = a.
Proof. unfold projectArea. by destruct (price_cell a m t). Qed.

Lemma projectArea_priceRange budget :
  priceRange (projectArea m t budget a) = price_cell a m t.
Proof. unfold projectArea. by destruct (price_cell a m t). Qed.

Lemma projectArea_no_budget prices :
  price_cell a m t = Some prices →
  withinBudget (projectArea m t None a) = Some true.
Proof. intros H. unfold projectArea. by rewrite H. Qed.

Lemma projectArea_budget prices b :
  price_cell a m t = Some prices →
  withinBudget (projectArea m t (Some b) a)
  = Some (bool_decide (PriceBand.min prices ≤ BudgetPreset.max b
                     ∧ BudgetPreset.min b ≤ PriceBand.max prices)).
Proof.
  intros H. unfold projectArea. rewrite H. cbn. f_equal.
  rewrite Z.geb_leb.
  destruct (Z.leb_spec (PriceBand.min prices) (BudgetPreset.max b)),
         (Z.leb_spec (BudgetPreset.min b) (PriceBand.max prices));
  cbn; symmetry;
  (apply bool_decide_eq_true; lia) || (apply bool_decide_eq_false; lia).
Qed.

Lemma projectArea_visible prices budget :
  price_cell a m t = Some prices →
  withinBudget (projectArea m t budget a)
  = Some (visible (projectArea m t budget a)).
Proof. intros H. unfold projectArea. by rewrite H. Qed.
End AreaProjection.

(** Two bands with [min ≤ max] satisfy the overlap test exactly when
    some amount lies in both. *)
Lemma overlap_iff_common_amount (lo hi blo bhi : Z) :
  lo ≤ hi → blo ≤ bhi →
  (lo ≤ bhi ∧ hi >= blo) ↔ ∃ v, (lo ≤ v ∧ v ≤ hi) ∧ (blo ≤ v ∧ v ≤ bhi).
Proof.
  intros Hband Hbudget. split.
  - intros [H1 H2]. exists (Z.max lo blo). lia.
  - intros (v & ? & ?). lia.
Qed.

(** C1. For an area whose price cell exists for the active mode and
    property type, [withinBudget] is true exactly when
    [prices.min <= budgetRange.max] and [prices.max >= budgetRange.min]
    (the two bands overlap, boundaries included); with no [budgetRange]
    it is true. *)
Theorem withinBudget_iff_overlap
    (m : Mode) (t : string) (a : AreaRecord) (prices : PriceBand.t) :
  App.price_cell a m t = Some prices →
  (∀ b : BudgetPreset.t,
      (App.withinBudget (App.projectArea m t (Some b) a) = Some true ↔
       PriceBand.min prices ≤ BudgetPreset.max b
       ∧ PriceBand.max prices >= BudgetPreset.min b)
      ∧ (App.withinBudget (App.projectArea m t (Some b) a) = Some false ↔
         ¬ (PriceBand.min prices ≤ BudgetPreset.max b
            ∧ PriceBand.max prices >= BudgetPreset.min b)))
  ∧ App.withinBudget (App.projectArea m t None a) = Some true.
Proof.
  intros Hcell. split; [| by eapply projectArea_no_budget].
  intros b. rewrite (projectArea_budget _ _ _ _ _ Hcell).
  split; (split; [intros [= H] | intros H; f_equal]).
  - apply bool_decide_eq_true in H. lia.
  - apply bool_decide_eq_true. lia.
  - apply bool_decide_eq_false in H. lia.
  - apply bool_decide_eq_false. lia.
Qed.

Lemma withinBudget_iff_overlap_witness :
  App.price_cell andheri Buy "2bhk" = Some (cell 8000000 12000000 "high")
  ∧ App.withinBudget
      (App.projectArea Buy "2bhk"
         (Some (Filters.preset "1.2-2Cr" "₹1.2Cr - 2Cr" 12000000 20000000
                  "#ef4444")) andheri) = Some true
  ∧ App.withinBudget
      (App.projectArea Buy "2bhk"
         (Some (Filters.preset "2Cr+" "₹2Cr+" 20000000 999999999 "#a855f7"))
         andheri) = Some false.
Proof.
  assert (Hcell : App.price_cell andheri Buy "2bhk"
                  = Some (cell 8000000 12000000 "high")) by reflexivity.
  destruct (withinBudget_iff_overlap Buy "2bhk" andheri _ Hcell) as [Hb _].
  split; [exact Hcell |]. split.
  - apply (Hb (Filters.preset "1.2-2Cr" "₹1.2Cr - 2Cr" 12000000 20000000
                 "#ef4444")). cbn. lia.
  - apply (Hb (Filters.preset "2Cr+" "₹2Cr+" 20000000 999999999 "#a855f7")).
    cbn. lia.
Defined.

Lemma totalCount_all (s : App.AppState) (d : Dataset) :
  App.priceData s = Some d → App.totalCount s = length (areas d).
Proof.
  intros H. unfold App.totalCount, App.filteredAreas. rewrite H.
  apply length_map.
Qed.

(** C2. An area without a price cell for the active mode and property
    type is projected, with no error, to an entry that is not visible and
    has no price range; the entry is in [filteredAreas] and the total
    count is the number of records of the dataset, priced or not.  When
    the cell exists, [visible] is [withinBudget]. *)
Theorem missing_cell_hidden_but_counted
    (s : App.AppState) (d : Dataset) (a : AreaRecord) :
  App.priceData s = Some d →
  a ∈ areas d →
  let p := App.projectArea (App.mode s) (App.propertyType s)
             (App.budgetRange s) a in
  p ∈ App.filteredAreas s
  ∧ App.totalCount s = length (areas d)
  ∧ (App.price_cell a (App.mode s) (App.propertyType s) = None →
     App.visible p = false ∧ App.priceRange p = None)
  ∧ (∀ prices,
        App.price_cell a (App.mode s) (App.propertyType s) = Some prices →
        App.priceRange p = Some prices
        ∧ App.withinBudget p = Some (App.visible p)).
Proof.
  intros Hdata Hin p. repeat split.
  - unfold App.filteredAreas. rewrite Hdata.
    apply list_elem_of_In, in_map, list_elem_of_In, Hin.
  - by apply totalCount_all.
  - subst p. unfold App.projectArea. by rewrite H.
  - subst p. unfold App.projectArea. by rewrite H.
  - subst p. by rewrite projectArea_priceRange.
  - by eapply projectArea_visible.
Qed.

Lemma missing_cell_hidden_but_counted_witness :
  App.price_cell andheri Rent "2bhk" = None
  ∧ App.visible (App.projectArea Rent "2bhk" None andheri) = false
  ∧ App.priceRange (App.projectArea Rent "2bhk" None andheri) = None
  ∧ App.totalCount (loaded sample_dataset Rent) = 1%nat
  ∧ App.visibleCount (loaded sample_dataset Rent) = 0%nat.
Proof.
  assert (Hin : andheri ∈ areas sample_dataset)
    by (apply list_elem_of_In; now left).
  destruct (missing_cell_hidden_but_counted (loaded sample_dataset Rent)
              sample_dataset andheri eq_refl Hin) as (_ & Hn & Hmiss & _).
  destruct (Hmiss eq_refl) as [Hv Hp].
  split; [reflexivity |]. split; [exact Hv |]. split; [exact Hp |].
  split; [exact Hn | reflexivity].
Defined.

(** ** Fetch, error view and retry *)
Section Fetch.
Import App.

Lemma fetchPrices_error_kept o s e :
  error s = Some e → ∃ e', error (fetchPrices o s) = Some e'.
Proof.
  intros H. destruct o as [msg | [|] [msg | data]]; cbn; eauto.
Qed.

Lemma fetchPrices_success_fields d s :
  let s' := fetchPrices (FetchResponse true (inr d)) s in
  priceData s' = Some d ∧ loading s' = false ∧ error s' = error s.
Proof. by cbn. Qed.

(** From the initial state a first successful fetch does reach the
    main view. *)
Lemma first_fetch_success d :
  ∃ markers v n,
  render (fetchPrices (FetchResponse true (inr d)) initial)
  = MainView markers v n.
Proof. cbn. eauto. Qed.

Lemma render_error_inv s msg :
  render s = ErrorView msg →
  loading s = false ∧ truthy (error s) = true ∧ msg = default "" (error s).
Proof.
  unfold render. destruct (loading s); [discriminate |].
  destruct (truthy (error s)); [| discriminate].
  by intros [= <-].
Qed.

(** No sequence of retries leaves the error view: each one ends with
    [loading] false and [error] still set. *)
Lemma error_view_absorbing (os : list FetchOutcome) (s : AppState) msg :
  Forall failure_has_message os →
  render s = ErrorView msg →
  ∃ msg', render (fold_left (λ s o, retry o s) os s) = ErrorView msg'.
Proof.
  intros Hos. revert s msg.
  induction Hos as [| o os Ho _ IH]; intros s msg Hs; [by eauto |].
  cbn [fold_left].
  apply render_error_inv in Hs as (Hl & Ht & ->).
  assert (∃ m, render (retry o s) = ErrorView m) as [m Hm]; [| by eauto].
  unfold render, retry.
  destruct o as [message | [|] [message | data]]; cbn in *;
    rewrite ?Ht; eauto;
    destruct (String.eqb_spec message ""); cbn; by eauto.
Qed.
End Fetch.

(** C3, as the code behaves.  [fetchPrices] never resets [error]: once
    the error view is shown, a retry whose fetch succeeds stores the
    dataset and ends loading, and the render guard [if (error)] still
    selects the error view with the old message. *)
Theorem retry_success_stays_in_error_view
    (s : App.AppState) (d : Dataset) (msg : string) :
  App.render s = App.ErrorView msg →
  let s' := App.retry (App.FetchResponse true (inr d)) s in
  App.priceData s' = Some d ∧ App.render s' = App.ErrorView msg.
Proof.
  intros H s'. apply render_error_inv in H as (Hl & Ht & ->).
  split; [reflexivity |].
  unfold App.render. cbn. by rewrite Ht.
Qed.

Lemma retry_success_stays_in_error_view_witness :
  let s := App.fetchPrices (App.FetchResponse false (inl "")) App.initial in
  App.render s = App.ErrorView "Failed to fetch price data"
  ∧ App.render (App.retry (App.FetchResponse true (inr sample_dataset)) s)
    = App.ErrorView "Failed to fetch price data".
Proof.
  intros s. split; [reflexivity |].
  apply (retry_success_stays_in_error_view s sample_dataset
           "Failed to fetch price data" eq_refl).
Defined.

(** ** The update badge *)

(** C4, as the code behaves.  Parsing a malformed date string throws
    nothing: the date is invalid, [diffDays] is NaN, every comparison
    fails and [toLocaleDateString] returns "Invalid Date"; the formatter
    returns that text and [DataInfo] shows the badge "Updated Invalid
    Date" instead of omitting it. *)
Theorem invalid_date_badge_shown
    (Date_parse : string → option Z) (Date_now : Z)
    (Date_getFullYear : Z → Z)
    (Date_toLocaleDateString_valid : Z → bool → string)
    (version dateString : string) (visibleCount totalCount : nat) :
  dateString ≠ ""%string →
  Date_parse dateString = None →
  App.formatUpdateDate Date_parse Date_now Date_getFullYear
    Date_toLocaleDateString_valid (Some dateString) = Some "Invalid Date"%string
  ∧ App.update_badge
      (App.DataInfo Date_parse Date_now Date_getFullYear
         Date_toLocaleDateString_valid version (Some dateString)
         visibleCount totalCount)
    = Some "Updated Invalid Date"%string.
Proof.
  intros Hne Hparse.
  assert (Hfmt : App.formatUpdateDate Date_parse Date_now Date_getFullYear
            Date_toLocaleDateString_valid (Some dateString)
          = Some "Invalid Date"%string).
  { unfold App.formatUpdateDate. cbn.
    destruct (String.eqb_spec dateString ""); [done |]. cbn.
    by rewrite Hparse. }
  split; [exact Hfmt |].
  unfold App.DataInfo. cbn [App.update_badge]. by rewrite Hfmt.
Qed.

Lemma invalid_date_badge_shown_witness :
  AsciiHost.Date_parse "not-a-date" = None
  ∧ App.update_badge
      (App.DataInfo AsciiHost.Date_parse 1705276800000
         AsciiHost.Date_getFullYear AsciiHost.Date_toLocaleDateString_valid
         "1" (Some "not-a-date"%string) 1 1)
    = Some "Updated Invalid Date"%string.
Proof.
  split; [reflexivity |].
  apply (invalid_date_badge_shown AsciiHost.Date_parse 1705276800000
           AsciiHost.Date_getFullYear AsciiHost.Date_toLocaleDateString_valid
           "1" "not-a-date" 1 1); [discriminate | reflexivity].
Defined.

(** The formatter returns null only for a missing or an empty
    [generated_at]. *)
Lemma formatUpdateDate_null_iff
    (Date_parse : string → option Z) (Date_now : Z)
    (Date_getFullYear : Z → Z)
    (Date_toLocaleDateString_valid : Z → bool → string)
    (dateString : option string) :
  App.formatUpdateDate Date_parse Date_now Date_getFullYear
    Date_toLocaleDateString_valid dateString = None
  ↔ truthy dateString = false.
Proof.
  unfold App.formatUpdateDate.
  destruct (truthy dateString); cbn; [| done].
  split; [| done].
  repeat match goal with |- context [if ?b then _ else _] => destruct b end;
    discriminate.
Qed.

(** ** Filter state *)
Section FilterState.
Import App Filters.

Lemma onClick_mode c s :
  mode (onClick c s) =
  match c with ClickBuy => Buy | ClickRent => Rent | _ => mode s end.
Proof.
  destruct c; cbn; try reflexivity.
  unfold handleBudgetClick.
  destruct (budgetRange s) as [r |]; [destruct (_ && _) |]; reflexivity.
Qed.

Lemma onClick_budget_of_mode c s :
  offered s c → budget_of_mode s → budget_of_mode (onClick c s).
Proof.
  unfold budget_of_mode, budgets.
  destruct c; cbn; intros Hc Hs b; try apply Hs; try discriminate.
  unfold handleBudgetClick.
  destruct (budgetRange s) as [r |]; [destruct (_ && _) |]; cbn;
    intros [= <-] || discriminate; exact Hc.
Qed.

Lemma run_budget_of_mode cs s :
  offered_run s cs → budget_of_mode s → budget_of_mode (run cs s).
Proof.
  intros Hrun. induction Hrun as [| s c cs Hc _ IH]; [done |].
  intros Hs. cbn. by apply IH, onClick_budget_of_mode.
Qed.
End FilterState.

(** C8. Clicking either mode button, from any filter state, sets the
    mode and resets [budgetRange] to null; and the mode buttons are the
    only transitions of the filter panel that change the mode, so every
    transition that changes [mode] leaves [budgetRange] null. *)
Theorem mode_switch_resets_budget (s : App.AppState) :
  (App.mode (Filters.onClick Filters.ClickBuy s) = Buy
   ∧ App.budgetRange (Filters.onClick Filters.ClickBuy s) = None)
  ∧ (App.mode (Filters.onClick Filters.ClickRent s) = Rent
     ∧ App.budgetRange (Filters.onClick Filters.ClickRent s) = None)
  ∧ ∀ c : Filters.Click,
      App.mode (Filters.onClick c s) ≠ App.mode s →
      App.budgetRange (Filters.onClick c s) = None.
Proof.
  split; [by cbn |]. split; [by cbn |].
  intros c Hchange. rewrite onClick_mode in Hchange.
  destruct c; try done.
Qed.

(** C10. Clicking preset [b] clears [budgetRange] when the current range
    has the same [min] and [max] as [b] (the preset shown as active),
    and sets it to [b] otherwise, also when no range is set; nothing
    else of the state changes. *)
Theorem budget_click_toggles (b : BudgetPreset.t) (s : App.AppState) :
  (∀ r, App.budgetRange s = Some r →
        BudgetPreset.min r = BudgetPreset.min b →
        BudgetPreset.max r = BudgetPreset.max b →
        App.budgetRange (Filters.handleBudgetClick b s) = None)
  ∧ (∀ r, App.budgetRange s = Some r →
          ¬ (BudgetPreset.min r = BudgetPreset.min b
             ∧ BudgetPreset.max r = BudgetPreset.max b) →
          App.budgetRange (Filters.handleBudgetClick b s) = Some b)
  ∧ (App.budgetRange s = None →
     App.budgetRange (Filters.handleBudgetClick b s) = Some b)
  ∧ Filters.handleBudgetClick b s
    = App.setBudgetRange
        (if Filters.isBudgetActive (App.budgetRange s) b then None
         else Some b) s.
Proof.
  unfold Filters.handleBudgetClick. repeat split.
  - intros r -> Hmin Hmax. rewrite Hmin, Hmax, !Z.eqb_refl. reflexivity.
  - intros r -> Hne.
    destruct (Z.eqb_spec (BudgetPreset.min r) (BudgetPreset.min b)),
             (Z.eqb_spec (BudgetPreset.max r) (BudgetPreset.max b));
      cbn; tauto.
  - intros ->. reflexivity.
  - unfold Filters.isBudgetActive.
    destruct (App.budgetRange s) as [r |]; [destruct (_ && _) |]; reflexivity.
Qed.

Lemma budget_click_toggles_witness :
  let b := Filters.preset "50-80L" "₹50L - 80L" 5000000 8000000 "#3b82f6" in
  let s := Filters.handleBudgetClick b App.initial in
  App.budgetRange s = Some b
  ∧ App.budgetRange (Filters.handleBudgetClick b s) = None.
Proof.
  intros b s.
  destruct (budget_click_toggles b App.initial) as (_ & _ & Hset & _).
  destruct (budget_click_toggles b s) as (Hclear & _).
  split; [exact (Hset eq_refl) |].
  exact (Hclear b (Hset eq_refl) eq_refl eq_refl).
Defined.

(** ** Marker density and render mode *)
Section MarkerDensity.
Import App PriceBadge.
Local Open Scope Q_scope.

(** The two comparisons of the source on a zoom value. *)
Lemma zoom_ge (k z : Q) : Qle_bool k z = true ↔ k <= z.
Proof. apply Qle_bool_iff. Qed.

Lemma zoom_lt (k z : Q) : negb (Qle_bool k z) = true ↔ z < k.
Proof.
  rewrite negb_true_iff, <- not_true_iff_false, zoom_ge.
  split; [apply Qnot_le_lt | apply Qlt_not_le].
Qed.

Lemma shouldShow_hidden a z : visible a = false → shouldShow a z = false.
Proof. intros H. unfold shouldShow. by rewrite H. Qed.

Lemma showAsDot_tier a a' z h :
  zoom_level (area a') = zoom_level (area a) →
  showAsDot a' z h = showAsDot a z h.
Proof. intros H. unfold showAsDot. by rewrite H. Qed.

(** A marker is drawn for a projected area exactly when [shouldShow]
    holds: a visible projection always carries its price range, so its
    icon is never null. *)
Lemma PriceBadge_drawn_iff m t budget rec z h :
  let a := projectArea m t budget rec in
  is_Some (PriceBadge a z h) ↔ shouldShow a z = true.
Proof.
  intros a. unfold PriceBadge. destruct (shouldShow a z) eqn:Hshow; cbn.
  - split; [done | intros _].
    unfold icon. subst a. unfold shouldShow, projectArea in *.
    destruct (price_cell rec m t); cbn in *; [eauto | discriminate].
  - split; [by intros [? [=]] | done].
Qed.
End MarkerDensity.

(** C5. For a visible area the marker is shown exactly per tier:
    [country] iff zoom < 7, [state] iff 7 <= zoom < 10, [city] iff
    zoom < 11, [region] and [area] iff zoom >= 11, [micro] iff
    zoom >= 14, and never for any other tier value.  For an area that
    comes out of the projection, shown means drawn: [PriceBadge] returns
    a marker exactly then. *)
Theorem shouldShow_by_tier (a : App.ProjectedArea) (currentZoom : Q) :
  App.visible a = true →
  let tier := zoom_level (App.area a) in
  let shown := PriceBadge.shouldShow a currentZoom = true in
  (tier = "country"%string → (shown ↔ (currentZoom < 7)%Q))
  ∧ (tier = "state"%string →
     (shown ↔ (7 <= currentZoom)%Q ∧ (currentZoom < 10)%Q))
  ∧ (tier = "city"%string → (shown ↔ (currentZoom < 11)%Q))
  ∧ (tier = "region"%string ∨ tier = "area"%string →
     (shown ↔ (11 <= currentZoom)%Q))
  ∧ (tier = "micro"%string → (shown ↔ (14 <= currentZoom)%Q))
  ∧ (¬ known_tier tier → ¬ shown)
  ∧ (∀ m t budget rec isHovered,
       a = App.projectArea m t budget rec →
       (is_Some (PriceBadge.PriceBadge a currentZoom isHovered) ↔ shown)).
Proof.
  intros Hvis tier shown. subst shown.
  repeat apply conj;
    [.. | intros m t budget rec h ->; apply PriceBadge_drawn_iff];
    unfold PriceBadge.shouldShow; rewrite Hvis; cbn [negb]; fold tier;
    try (intros ->; cbn [String.eqb Ascii.eqb Bool.eqb];
         rewrite ?andb_true_iff, ?zoom_lt, ?zoom_ge; tauto).
  - intros [-> | ->]; cbn; apply zoom_ge.
  - intros Hunknown. unfold known_tier in Hunknown.
    rewrite !elem_of_cons in Hunknown.
    repeat match goal with
           | |- context [String.eqb tier ?k] =>
               destruct (String.eqb_spec tier k); [tauto |]
           end.
    discriminate.
Qed.

Lemma shouldShow_by_tier_witness :
  (PriceBadge.shouldShow (marker "region" true) 11 = true
   ∧ PriceBadge.shouldShow (marker "region" true) 10 ≠ true)
  ∧ (PriceBadge.shouldShow (marker "country" true) 6 = true
     ∧ PriceBadge.shouldShow (marker "country" true) 7 ≠ true).
Proof.
  split.
  - destruct (shouldShow_by_tier (marker "region" true) 11 eq_refl)
      as (_ & _ & _ & H11 & _).
    destruct (shouldShow_by_tier (marker "region" true) 10 eq_refl)
      as (_ & _ & _ & H10 & _).
    split.
    + apply H11; [by left | discriminate].
    + intros H. apply H10 in H; [| by left]. revert H. by vm_compute.
  - destruct (shouldShow_by_tier (marker "country" true) 6 eq_refl)
      as (H6 & _).
    destruct (shouldShow_by_tier (marker "country" true) 7 eq_refl)
      as (H7 & _).
    split.
    + apply H6; reflexivity.
    + intros H. apply H7 in H; [| reflexivity]. revert H. by vm_compute.
Defined.

(** C9. Tiers [city], [state] and [country] are always drawn as an
    expanded badge; any other tier is drawn as a dot exactly when
    zoom < 14 and the marker is not hovered, and as a badge otherwise.
    The decision reads the tier, the zoom and the hover flag only, so it
    is the same whatever the visibility gate says. *)
Theorem showAsDot_render_mode
    (a : App.ProjectedArea) (currentZoom : Q) (isHovered : bool) :
  let tier := zoom_level (App.area a) in
  let sparse :=
    tier = "city"%string ∨ tier = "state"%string ∨ tier = "country"%string in
  (sparse → PriceBadge.showAsDot a currentZoom isHovered = false)
  ∧ (¬ sparse →
     (PriceBadge.showAsDot a currentZoom isHovered = true
      ↔ (currentZoom < 14)%Q ∧ isHovered = false))
  ∧ (∀ prices, App.priceRange a = Some prices →
       PriceBadge.icon a currentZoom isHovered
       = Some (if PriceBadge.showAsDot a currentZoom isHovered
               then PriceBadge.DotIcon else PriceBadge.BadgeIcon))
  ∧ (∀ a' : App.ProjectedArea,
       zoom_level (App.area a') = tier →
       PriceBadge.showAsDot a' currentZoom isHovered
       = PriceBadge.showAsDot a currentZoom isHovered).
Proof.
  intros tier sparse. subst sparse. unfold PriceBadge.showAsDot.
  fold tier. repeat apply conj.
  - by intros [-> | [-> | ->]].
  - intros Hdense.
    assert (Hs : PriceBadge.is_sparse_tier tier = false).
    { unfold PriceBadge.is_sparse_tier. cbn [existsb].
      repeat match goal with
             | |- context [String.eqb tier ?k] =>
                 destruct (String.eqb_spec tier k); [tauto |]
             end.
      reflexivity. }
    rewrite Hs, <- zoom_lt.
    destruct (Qle_bool 14 currentZoom), isHovered; cbn; intuition congruence.
  - intros prices Hp. unfold PriceBadge.icon. by rewrite Hp.
  - intros a' ->. reflexivity.
Qed.

Lemma showAsDot_render_mode_witness :
  PriceBadge.showAsDot (marker "area" true) 12 false = true
  ∧ PriceBadge.showAsDot (marker "area" false) 12 false = true
  ∧ PriceBadge.showAsDot (marker "city" true) 10 false = false.
Proof.
  destruct (showAsDot_render_mode (marker "area" true) 12 false)
    as (_ & Hdot & _ & Hsame).
  destruct (showAsDot_render_mode (marker "city" true) 10 false)
    as (Hbadge & _).
  assert (H : PriceBadge.showAsDot (marker "area" true) 12 false = true).
  { apply Hdot; [| by split].
    intros [H | [H | H]]; discriminate H. }
  split; [exact H |]. split.
  - rewrite (Hsame (marker "area" false) eq_refl). exact H.
  - apply Hbadge. by left.
Defined.

(** ** Strings and decimal digits *)
Section Strings.

Lemma append_nil (t : string) : "" +:+ t = t.
Proof. reflexivity. Qed.

Lemma append_cons (c : ascii) (s t : string) :
  String c s +:+ t = String c (s +:+ t).
Proof. reflexivity. Qed.

Lemma append_assoc (s t u : string) : (s +:+ t) +:+ u = s +:+ t +:+ u.
Proof.
  induction s as [| c s IH]; [done |]. by rewrite !append_cons, IH.
Qed.

Lemma string_of_uint_revapp (l acc : Decimal.uint) :
  NilEmpty.string_of_uint (Decimal.revapp l acc)
  = NilEmpty.string_of_uint (Decimal.rev l) +:+ NilEmpty.string_of_uint acc.
Proof.
  unfold Decimal.rev. revert acc.
  induction l as [| l IH | l IH | l IH | l IH | l IH | l IH | l IH | l IH
                  | l IH | l IH]; intros acc; cbn [Decimal.revapp];
    [reflexivity | rewrite IH, (IH (_ Decimal.Nil)) ..];
    rewrite append_assoc; reflexivity.
Qed.

Lemma string_of_Z_pos (p : positive) :
  string_of_Z (Z.pos p) = NilEmpty.string_of_uint (Pos.to_uint p).
Proof.
  unfold string_of_Z. cbn [Z.to_int NilZero.string_of_int].
  pose proof (Unsigned.to_uint_nonnil p).
  unfold NilZero.string_of_uint. by destruct (Pos.to_uint p).
Qed.

(** Appending a decimal digit to a number appends its character. *)
Lemma string_of_Z_tenfold (p d : Z) :
  0 < p → 0 ≤ d < 10 →
  string_of_Z (10 * p + d) = string_of_Z p +:+ string_of_Z d.
Proof.
  intros Hp Hd. destruct p as [| p |]; try lia.
  set (q := Z.to_pos (10 * Z.pos p + d)).
  assert (Hq : 10 * Z.pos p + d = Z.pos q) by lia.
  assert (HN : N.pos q = (10 * N.pos p + Z.to_N d)%N) by lia.
  rewrite Hq, !string_of_Z_pos. unfold Pos.to_uint.
  change (Pos.to_little_uint q) with (Unsigned.to_lu (N.pos q)).
  change (Pos.to_little_uint p) with (Unsigned.to_lu (N.pos p)).
  rewrite HN. clear q Hq HN.
  assert (Hd' : d = 0 ∨ d = 1 ∨ d = 2 ∨ d = 3 ∨ d = 4 ∨ d = 5 ∨ d = 6
                ∨ d = 7 ∨ d = 8 ∨ d = 9) by lia.
  repeat destruct Hd' as [-> | Hd']; try subst d;
    match goal with
    | |- context [(?a + Z.to_N ?k)%N] =>
        let n := eval cbv in (Z.to_nat k) in
        replace (a + Z.to_N k)%N with (Nat.iter n N.succ a) by (cbn; lia)
    end;
    cbn [Nat.iter nat_rect];
    rewrite ?Unsigned.to_lu_succ, Unsigned.to_ldec_tenfold;
    cbn [Decimal.Little.succ]; unfold Decimal.rev at 1;
    cbn [Decimal.revapp]; rewrite string_of_uint_revapp; reflexivity.
Qed.

Lemma string_of_Z_nonempty (n : Z) : (1 ≤ String.length (string_of_Z n))%nat.
Proof.
  destruct n as [| p | p]; [cbn; lia | | cbn; lia].
  rewrite string_of_Z_pos. pose proof (Unsigned.to_uint_nonnil p).
  destruct (Pos.to_uint p); cbn; (done || lia).
Qed.

Lemma string_of_Z_digit (d : Z) :
  0 ≤ d < 10 → String.length (string_of_Z d) = 1%nat.
Proof.
  intros Hd.
  assert (Hd' : d = 0 ∨ d = 1 ∨ d = 2 ∨ d = 3 ∨ d = 4 ∨ d = 5 ∨ d = 6
                ∨ d = 7 ∨ d = 8 ∨ d = 9) by lia.
  repeat destruct Hd' as [-> | Hd']; try subst d; reflexivity.
Qed.

Lemma substring_prefix (s t : string) :
  substring 0 (String.length s) (s +:+ t) = s.
Proof.
  induction s as [| c s IH]; cbn [String.length].
  - rewrite append_nil. by destruct t.
  - rewrite append_cons. cbn [substring]. by rewrite IH.
Qed.

Lemma substring_suffix (s t : string) :
  substring (String.length s) (String.length t) (s +:+ t) = t.
Proof.
  induction s as [| c s IH]; cbn [String.length].
  - rewrite append_nil. clear. induction t as [| c t IH]; [done |].
    cbn [String.length substring]. by rewrite IH.
  - rewrite append_cons. cbn [substring]. exact IH.
Qed.

Lemma length_append (s t : string) :
  String.length (s +:+ t) = (String.length s + String.length t)%nat.
Proof.
  induction s as [| c s IH]; [done |].
  rewrite append_cons. cbn [String.length]. by rewrite IH.
Qed.

(** [n] read with one decimal: the digits of [n / 10], a point, and the
    last digit. *)
Lemma fixed_digits_1 (n : Z) :
  0 ≤ n →
  JSNumber.fixed_digits n 1
  = string_of_Z (n / 10) +:+ "." +:+ string_of_Z (n mod 10).
Proof.
  intros Hn. unfold JSNumber.fixed_digits, JSNumber.insert_point.
  cbn [Nat.eqb].
  destruct (Z.lt_ge_cases n 10) as [Hsmall | Hbig].
  - rewrite Z.div_small, Z.mod_small by lia.
    assert (Hd : n = 0 ∨ n = 1 ∨ n = 2 ∨ n = 3 ∨ n = 4 ∨ n = 5 ∨ n = 6
                 ∨ n = 7 ∨ n = 8 ∨ n = 9) by lia.
    repeat destruct Hd as [-> | Hd]; try subst n; reflexivity.
  - pose proof (Z.div_mod n 10 ltac:(lia)) as Hdm.
    pose proof (Z.mod_pos_bound n 10 ltac:(lia)) as Hm.
    assert (Hstr : string_of_Z n
                   = string_of_Z (n / 10) +:+ string_of_Z (n mod 10)).
    { rewrite Hdm at 1.
      apply string_of_Z_tenfold; [apply Z.div_str_pos |]; lia. }
    rewrite Hstr.
    set (A := string_of_Z (n / 10)). set (B := string_of_Z (n mod 10)).
    pose proof (string_of_Z_nonempty (n / 10)) as HA. fold A in HA.
    pose proof (string_of_Z_digit (n mod 10) Hm) as HB. fold B in HB.
    cbv zeta. rewrite length_append, HB.
    destruct (Nat.leb_spec (String.length A + 1) 1); [lia |].
    rewrite length_append, HB.
    replace (String.length A + 1 - 1)%nat with (String.length A) by lia.
    rewrite substring_prefix. rewrite <- HB at 1. by rewrite substring_suffix.
Qed.
End Strings.

(** ** Search suggestions *)
Section Search.
Import SearchBar.

Lemma prefix_spec (q s : string) :
  String.prefix q s = true ↔ ∃ post, s = q +:+ post.
Proof.
  revert s. induction q as [| c q IH]; intros [| d s]; cbn.
  - split; [eauto | done].
  - split; [eauto | done].
  - split; [done | by intros [post [=]]].
  - setoid_rewrite append_cons.
    destruct (ascii_dec c d) as [-> | Hne].
    + rewrite IH. split; intros [post H]; exists post; congruence.
    + split; [done | intros [post H]; congruence].
Qed.

(** [includes] finds [q] exactly when [s] splits around a copy of it. *)
Lemma includes_spec (s q : string) :
  includes s q = true ↔ ∃ pre post, s = pre +:+ q +:+ post.
Proof.
  induction s as [| c s IH]; cbn [includes].
  - destruct (String.prefix q "") eqn:Hp.
    + split; [intros _ | done].
      apply prefix_spec in Hp as [post Hp]. by exists ""%string, post.
    + split; [done | intros ([| ? ?] & post & H); [| discriminate H]].
      rewrite append_nil in H.
      assert (String.prefix q "" = true) by (apply prefix_spec; eauto).
      congruence.
  - destruct (String.prefix q (String c s)) eqn:Hp.
    + split; [intros _ | done].
      apply prefix_spec in Hp as [post Hp]. by exists ""%string, post.
    + rewrite IH. split.
      * intros (pre & post & ->). by exists (String c pre), post.
      * intros ([| d pre] & post & H).
        -- rewrite append_nil in H.
           assert (String.prefix q (String c s) = true)
             by (apply prefix_spec; eauto).
           congruence.
        -- rewrite append_cons in H. injection H as -> ->. eauto.
Qed.

Variable trim : string → string.
Variable toLowerCase : string → string.

Lemma matches_spec query area :
  matches toLowerCase (toLowerCase query) area = true
  ↔ Matches toLowerCase query area.
Proof.
  unfold matches, Matches, contains_ci.
  rewrite orb_true_iff, includes_spec.
  destruct (region area) as [r |].
  - rewrite includes_spec. split; (intros [H | H]; [by left | right]).
    + eauto.
    + by destruct H as (? & [= <-] & H).
  - split; (intros [H | H]; [by left | exfalso]).
    + discriminate.
    + by destruct H as (? & [=] & _).
Qed.

#[global] Instance Matches_dec query area :
  Decision (Matches toLowerCase query area).
Proof.
  destruct (matches toLowerCase (toLowerCase query) area) eqn:H.
  - left. by apply matches_spec.
  - right. rewrite <- matches_spec. congruence.
Defined.

Lemma filter_matches query (areas : list AreaRecord) :
  List.filter (matches toLowerCase (toLowerCase query)) areas
  = filter (Matches toLowerCase query) areas.
Proof.
  induction areas as [| a l IH]; [done |].
  cbn [List.filter]. rewrite filter_cons, IH.
  destruct (matches toLowerCase (toLowerCase query) a) eqn:H.
  - rewrite decide_True; [done | by apply matches_spec].
  - rewrite decide_False; [done |]. rewrite <- matches_spec. congruence.
Qed.

Lemma suggestions_short query areas :
  (String.length (trim query) < 2)%nat →
  suggestions trim toLowerCase query areas = [].
Proof.
  intros H. unfold suggestions.
  by destruct (Nat.ltb_spec (String.length (trim query)) 2); [| lia].
Qed.

Lemma suggestions_long query areas :
  (2 ≤ String.length (trim query))%nat →
  suggestions trim toLowerCase query areas
  = take 8 (filter (Matches toLowerCase query) areas).
Proof.
  intros H. unfold suggestions.
  destruct (Nat.ltb_spec (String.length (trim query)) 2); [lia |].
  by rewrite filter_matches.
Qed.
End Search.

(** C7. With fewer than two characters left after trimming, the query
    yields no suggestion, whatever the dataset.  Otherwise the
    suggestions are the records whose [name] or [region] contains the
    query case-insensitively, in dataset order, cut after the first 8:
    a sublist of the dataset of length at most 8. *)
Theorem suggestions_contract
    (trim toLowerCase : string → string)
    (query : string) (areas : list AreaRecord) :
  ((String.length (trim query) < 2)%nat →
   SearchBar.suggestions trim toLowerCase query areas = [])
  ∧ ((2 ≤ String.length (trim query))%nat →
     SearchBar.suggestions trim toLowerCase query areas
     = take 8 (filter (Matches toLowerCase query) areas)
     ∧ (∀ a, a ∈ SearchBar.suggestions trim toLowerCase query areas →
             a ∈ areas ∧ Matches toLowerCase query a)
     ∧ SearchBar.suggestions trim toLowerCase query areas `sublist_of` areas
     ∧ (length (SearchBar.suggestions trim toLowerCase query areas) ≤ 8)%nat).
Proof.
  split; [apply suggestions_short |].
  intros H. rewrite (suggestions_long trim toLowerCase _ _ H).
  split; [done |]. split; [| split].
  - intros a Ha. apply elem_of_take in Ha as (i & Ha & _).
    apply list_elem_of_lookup_2, list_elem_of_filter in Ha. tauto.
  - etrans; [apply sublist_take | apply sublist_filter].
  - rewrite length_take. lia.
Qed.

Lemma suggestions_contract_witness :
  SearchBar.suggestions AsciiHost.trim AsciiHost.toLowerCase " M "
    sample_places = []
  ∧ List.map id
      (SearchBar.suggestions AsciiHost.trim AsciiHost.toLowerCase "Mumbai"
         sample_places)
    = [1; 2; 4; 5; 6; 7; 8; 9].
Proof.
  split.
  - apply (proj1 (suggestions_contract AsciiHost.trim AsciiHost.toLowerCase
                    " M " sample_places)).
    vm_compute. lia.
  - assert (Hlen : (2 ≤ String.length (AsciiHost.trim "Mumbai"))%nat)
      by (vm_compute; lia).
    destruct (proj2 (suggestions_contract AsciiHost.trim
                       AsciiHost.toLowerCase "Mumbai" sample_places) Hlen)
      as (_ & _ & _ & _).
    vm_compute. reflexivity.
Defined.

(** ** Binary64 division, from the definitions of [SpecFloat] *)
Section Binary64.
Import JSNumber.

(** [digits2_pos p] is the number of bits of [p]. *)
Lemma digits2_bounds (p : positive) :
  2 ^ (Z.pos (digits2_pos p) - 1) ≤ Z.pos p < 2 ^ Z.pos (digits2_pos p).
Proof.
  induction p as [p IH | p IH |]; cbn [digits2_pos]; [| | cbn; lia];
    rewrite Pos2Z.inj_succ;
    replace (Z.succ (Z.pos (digits2_pos p)) - 1)
      with (Z.pos (digits2_pos p) - 1 + 1) by lia;
    rewrite Z.pow_succ_r by lia;
    rewrite Z.pow_add_r by lia; lia.
Qed.

Lemma digits2_unique (p : positive) (k : Z) :
  2 ^ (k - 1) ≤ Z.pos p < 2 ^ k → Z.pos (digits2_pos p) = k.
Proof.
  intros [Hlo Hhi]. pose proof (digits2_bounds p) as [Hlo' Hhi'].
  assert (0 < k).
  { destruct k as [| k | k]; [cbn in Hhi; lia | lia |].
    rewrite Z.pow_neg_r in Hhi; lia. }
  destruct (Z.lt_trichotomy (Z.pos (digits2_pos p)) k)
    as [Hlt | [Heq | Hgt]]; [| done |].
  - assert (2 ^ Z.pos (digits2_pos p) ≤ 2 ^ (k - 1))
      by (apply Z.pow_le_mono_r; lia).
    lia.
  - assert (2 ^ k ≤ 2 ^ (Z.pos (digits2_pos p) - 1))
      by (apply Z.pow_le_mono_r; lia).
    lia.
Qed.

Lemma iter_xO (p d : positive) :
  Z.pos (Pos.iter xO p d) = Z.pos p * 2 ^ Z.pos d.
Proof.
  induction d as [| d IH] using Pos.peano_ind.
  - cbn. lia.
  - rewrite Pos.iter_succ, Pos2Z.inj_xO, IH, Pos2Z.inj_succ.
    rewrite Z.pow_succ_r by lia. lia.
Qed.

Lemma fexp_eq (x : Z) : fexp prec emax x = Z.max (x - 53) (-1074).
Proof. reflexivity. Qed.

Lemma shr_fexp_53 (m : positive) (e : Z) (l : location) :
  Z.pos (digits2_pos m) = 53 → -1074 ≤ e →
  shr_fexp prec emax (Z.pos m) e l = (shr_record_of_loc (Z.pos m) l, e).
Proof.
  intros Hd He. unfold shr_fexp. cbn [Zdigits2]. rewrite Hd, fexp_eq.
  replace (Z.max (53 + e - 53) (-1074) - e) with 0 by lia. reflexivity.
Qed.

Lemma shr_fexp_54 (m : positive) (e : Z) (l : location) :
  Z.pos (digits2_pos m) = 54 → -1075 ≤ e →
  shr_fexp prec emax (Z.pos m) e l
  = (shr_1 (shr_record_of_loc (Z.pos m) l), e + 1).
Proof.
  intros Hd He. unfold shr_fexp. cbn [Zdigits2]. rewrite Hd, fexp_eq.
  replace (Z.max (54 + e - 53) (-1074) - e) with 1 by lia. reflexivity.
Qed.

Lemma shr_m_of_loc m l : shr_m (shr_record_of_loc m l) = m.
Proof. by destruct l as [| []]. Qed.

Lemma loc_of_shr_of_loc m l :
  loc_of_shr_record (shr_record_of_loc m l) = l.
Proof. by destruct l as [| []]. Qed.

Lemma binary_round_aux_finish s mx ex lx :
  binary_round_aux prec emax s mx ex lx
  = let '(mrs, e) := shr_fexp prec emax mx ex lx in
    round_finish s (round_nearest_even (shr_m mrs) (loc_of_shr_record mrs)) e.
Proof.
  unfold binary_round_aux, round_finish. by destruct (shr_fexp _ _ _ _ _).
Qed.

Lemma round_finish_spec s m1 e :
  2 ^ 52 ≤ m1 ≤ 2 ^ 53 → -1074 ≤ e ≤ 970 →
  ∃ m' e', round_finish s m1 e = S754_finite s m' e'
           ∧ 2 ^ 52 ≤ Z.pos m' < 2 ^ 53
           ∧ e ≤ e' ∧ m1 = Z.pos m' * 2 ^ (e' - e).
Proof.
  intros Hm He. destruct m1 as [| p |]; try lia.
  destruct (Z.eq_dec (Z.pos p) (2 ^ 53)) as [Heq | Hne].
  - injection Heq as ->. unfold round_finish.
    rewrite shr_fexp_54 by (reflexivity || lia).
    cbn [shr_record_of_loc shr_1 shr_m].
    exists (2 ^ 52)%positive, (e + 1).
    destruct (Z.leb_spec (e + 1) (emax - prec)); [| unfold emax, prec in *; lia].
    replace (e + 1 - e) with 1 by lia. repeat split; lia.
  - unfold round_finish.
    rewrite shr_fexp_53 by (try apply digits2_unique; lia).
    cbn [shr_record_of_loc shr_m].
    exists p, e.
    destruct (Z.leb_spec e (emax - prec)); [| unfold emax, prec in *; lia].
    rewrite Z.sub_diag. repeat split; lia.
Qed.

Lemma new_location_rne q r y :
  0 < y → 0 ≤ r < y →
  round_nearest_even q (new_location y r) = rne q r y.
Proof.
  intros Hy Hr. unfold new_location, new_location_even, new_location_odd, rne.
  destruct (Z.even y) eqn:Hev; destruct (Z.eqb_spec r 0) as [-> | Hr0];
    cbn [round_nearest_even].
  - by destruct (Z.compare_spec (2 * 0) y); try lia.
  - done.
  - by destruct (Z.compare_spec (2 * 0) y); try lia.
  - destruct (Z.compare_spec (2 * r + 1) y), (Z.compare_spec (2 * r) y);
      try lia; try done.
    subst y. rewrite Z.even_mul in Hev. discriminate.
Qed.

Lemma rne_spec q r y :
  0 < y → 0 ≤ r < y →
  2 * Z.abs (rne q r y * y - (q * y + r)) ≤ y
  ∧ q ≤ rne q r y ≤ q + 1
  ∧ (r = 0 → rne q r y = q).
Proof.
  intros Hy Hr. unfold rne.
  destruct (Z.compare_spec (2 * r) y); [destruct (Z.even q) | |]; nia.
Qed.

Lemma shr_1_spec (m : positive) (r s : bool) :
  shr_1 {| shr_m := Z.pos m; shr_r := r; shr_s := s |}
  = {| shr_m := Z.pos m / 2; shr_r := Z.odd (Z.pos m); shr_s := r || s |}.
Proof.
  destruct m as [p | p |]; cbn [shr_1]; [| | reflexivity];
    f_equal; try reflexivity.
  - rewrite Pos2Z.inj_xI. apply Z.div_unique with 1; lia.
  - rewrite Pos2Z.inj_xO. apply Z.div_unique with 0; lia.
Qed.

(** Halving the mantissa before rounding is rounding the halved value. *)
Lemma shr_1_rne (q : positive) r y :
  0 < y → 0 ≤ r < y →
  let mrs := shr_1 (shr_record_of_loc (Z.pos q) (new_location y r)) in
  round_nearest_even (shr_m mrs) (loc_of_shr_record mrs)
  = rne (Z.pos q / 2) ((Z.pos q mod 2) * y + r) (2 * y).
Proof.
  intros Hy Hr mrs. subst mrs.
  assert (Hloc : ∃ rb sb, shr_record_of_loc (Z.pos q) (new_location y r)
            = {| shr_m := Z.pos q; shr_r := rb; shr_s := sb |}
            ∧ (rb || sb = negb (r =? 0))).
  { unfold new_location, new_location_even, new_location_odd.
    destruct (Z.even y); destruct (Z.eqb_spec r 0);
      repeat match goal with |- context [?a ?= ?b] => destruct (a ?= b) end;
      cbn; eauto. }
  destruct Hloc as (rb & sb & -> & Hor). rewrite shr_1_spec, Hor.
  cbn [shr_m loc_of_shr_record]. unfold rne.
  rewrite Zmod_odd.
  destruct (Z.odd (Z.pos q)), (Z.eqb_spec r 0); cbn [negb round_nearest_even];
    match goal with
    | |- context [?a ?= ?b] => destruct (Z.compare_spec a b)
    end; try lia; done.
Qed.


Lemma SFdiv_core_normal (mx my : positive) (ex ey : Z) :
  Z.pos (digits2_pos mx) = 53 → Z.pos (digits2_pos my) = 53 →
  -52 ≤ ex ≤ 0 → -52 ≤ ey ≤ 0 →
  SFdiv_core_binary prec emax (Z.pos mx) ex (Z.pos my) ey
  = (Z.pos mx * 2 ^ 53 / Z.pos my, ex - ey - 53,
     new_location (Z.pos my) ((Z.pos mx * 2 ^ 53) mod Z.pos my)).
Proof.
  intros Hx Hy Hex Hey. unfold SFdiv_core_binary. cbn [Zdigits2].
  rewrite Hx, Hy, fexp_eq.
  replace (Z.min (Z.max (53 + ex - (53 + ey) - 53) (-1074)) (ex - ey))
    with (ex - ey - 53) by lia.
  replace (ex - ey - (ex - ey - 53)) with 53 by lia.
  rewrite Z.shiftl_mul_pow2 by lia.
  unfold Z.div, Z.modulo.
  by destruct (Z.div_eucl (Z.pos mx * 2 ^ 53) (Z.pos my)).
Qed.

(** Division of two normal doubles with small exponents: the result is
    normal, and in units of [2^(ex - ey - 53)] its value [W] is the
    exact quotient rounded to nearest. *)
Lemma SFdiv_normal (mx my : positive) (ex ey : Z) :
  2 ^ 52 ≤ Z.pos mx < 2 ^ 53 → 2 ^ 52 ≤ Z.pos my < 2 ^ 53 →
  -52 ≤ ex ≤ 0 → -52 ≤ ey ≤ 0 →
  ∃ m e W,
    div (S754_finite false mx ex) (S754_finite false my ey)
    = S754_finite false m e
    ∧ 2 ^ 52 ≤ Z.pos m < 2 ^ 53
    ∧ ex - ey - 53 ≤ e
    ∧ W = Z.pos m * 2 ^ (e - (ex - ey - 53))
    ∧ Z.abs (W * Z.pos my - Z.pos mx * 2 ^ 53) * 2 ^ 53 ≤ Z.pos mx * 2 ^ 53
    ∧ (∀ z, z * Z.pos my = Z.pos mx * 2 ^ 53 →
            z < 2 ^ 53 ∨ Z.even z = true → W = z).
Proof.
  intros Hmx Hmy Hex Hey.
  assert (Hdx : Z.pos (digits2_pos mx) = 53) by (apply digits2_unique; lia).
  assert (Hdy : Z.pos (digits2_pos my) = 53) by (apply digits2_unique; lia).
  unfold div, SFdiv. rewrite SFdiv_core_normal by done. cbn [xorb].
  set (X := Z.pos mx * 2 ^ 53) in *. set (Y := Z.pos my) in *.
  pose proof (Z.div_mod X Y ltac:(lia)) as HX.
  pose proof (Z.mod_pos_bound X Y ltac:(lia)) as Hr.
  set (q := X / Y) in *. set (r := X mod Y) in *.
  assert (Hq : 2 ^ 52 ≤ q < 2 ^ 54).
  { split.
    - apply Z.div_le_lower_bound; [lia |]. subst X. nia.
    - apply Z.div_lt_upper_bound; [lia |]. subst X. nia. }
  destruct q as [| qp |] eqn:Eq; try lia. rewrite <- Eq in *.
  assert (Hexact : ∀ z, z * Y = X → z = q ∧ r = 0).
  { intros z Hz. assert (z = q); [| subst z; lia].
    destruct (Z.lt_trichotomy z q) as [? | [? | ?]]; [nia | done | nia]. }
  rewrite binary_round_aux_finish.
  destruct (Z.ltb_spec q (2 ^ 53)) as [Hsmall | Hbig].
  - rewrite Eq, shr_fexp_53 by (try apply digits2_unique; lia).
    rewrite shr_m_of_loc, loc_of_shr_of_loc, <- Eq, new_location_rne by lia.
    destruct (rne_spec q r Y ltac:(lia) Hr) as (Herr & Hrange & Hzero).
    destruct (round_finish_spec false (rne q r Y) (ex - ey - 53)
                ltac:(lia) ltac:(lia)) as (m' & e' & -> & Hm' & He' & HW).
    exists m', e', (rne q r Y).
    split_and!; [done | lia | lia | lia | done | |].
    + replace (q * Y + r) with X in Herr by lia.
      assert (Y * 2 ^ 52 ≤ Y * q) by (apply Z.mul_le_mono_nonneg_l; lia).
      lia.
    + intros z Hz _. destruct (Hexact z Hz) as [-> Hr0]. exact (Hzero Hr0).
  - rewrite Eq, shr_fexp_54 by (try apply digits2_unique; lia).
    pose proof (shr_1_rne qp r Y ltac:(lia) Hr) as Hrne.
    cbv zeta in Hrne. rewrite Hrne, <- Eq. clear Hrne.
    pose proof (Z.div_mod q 2 ltac:(lia)) as Hq2.
    pose proof (Z.mod_pos_bound q 2 ltac:(lia)) as Hq2r.
    set (h := q / 2) in *. set (b := q mod 2) in *.
    destruct (rne_spec h (b * Y + r) (2 * Y) ltac:(lia) ltac:(nia))
      as (Herr & Hrange & Hzero).
    destruct (round_finish_spec false (rne h (b * Y + r) (2 * Y))
                (ex - ey - 53 + 1) ltac:(lia) ltac:(lia))
      as (m' & e' & -> & Hm' & He' & HW).
    exists m', e', (2 * rne h (b * Y + r) (2 * Y)).
    split_and!; [done | lia | lia | lia | | |].
    + rewrite HW.
      replace (e' - (ex - ey - 53)) with (e' - (ex - ey - 53 + 1) + 1) by lia.
      rewrite Z.pow_add_r by lia. lia.
    + replace (h * (2 * Y) + (b * Y + r)) with X in Herr by nia.
      assert (Y * 2 ^ 53 ≤ Y * q) by (apply Z.mul_le_mono_nonneg_l; lia).
      lia.
    + intros z Hz Hev. destruct (Hexact z Hz) as [-> Hr0].
      destruct Hev as [? | Hev]; [lia |].
      assert (b = 0).
      { subst b. rewrite Zmod_even, Hev. reflexivity. }
      rewrite Hzero by nia. lia.
Qed.

Lemma round_finish_53 s (m : positive) e :
  2 ^ 52 ≤ Z.pos m < 2 ^ 53 → -1074 ≤ e ≤ 971 →
  round_finish s (Z.pos m) e = S754_finite s m e.
Proof.
  intros Hm He. unfold round_finish.
  rewrite shr_fexp_53 by (try apply digits2_unique; lia).
  cbn [shr_record_of_loc shr_m].
  by destruct (Z.leb_spec e (emax - prec)); [| unfold emax, prec in *; lia].
Qed.

(** The double of a positive integer below [2^53] is the integer
    itself, with its mantissa shifted up to 53 bits. *)
Lemma of_Z_normal (a : Z) :
  0 < a < 2 ^ 53 →
  ∃ m s, of_Z a = S754_finite false m (- s)
         ∧ 0 ≤ s ≤ 52 ∧ Z.pos m = a * 2 ^ s ∧ 2 ^ 52 ≤ Z.pos m < 2 ^ 53.
Proof.
  intros Ha. destruct a as [| p |]; try lia.
  pose proof (digits2_bounds p) as Hd.
  set (dg := Z.pos (digits2_pos p)) in *.
  assert (Hdg : 1 ≤ dg ≤ 53).
  { split; [subst dg; lia |].
    destruct (Z.leb_spec dg 53); [done |].
    assert (2 ^ 53 ≤ 2 ^ (dg - 1)) by (apply Z.pow_le_mono_r; lia). lia. }
  assert (Hpow : 2 ^ (dg - 1) * 2 ^ (53 - dg) = 2 ^ 52).
  { rewrite <- Z.pow_add_r by lia. f_equal. lia. }
  assert (Hpow' : 2 ^ dg * 2 ^ (53 - dg) = 2 ^ 53).
  { rewrite <- Z.pow_add_r by lia. f_equal. lia. }
  assert (Hnorm : 2 ^ 52 ≤ Z.pos p * 2 ^ (53 - dg) < 2 ^ 53).
  { assert (0 < 2 ^ (53 - dg)) by (apply Z.pow_pos_nonneg; lia). nia. }
  unfold of_Z, binary_normalize, binary_round.
  fold dg. rewrite fexp_eq.
  replace (Z.max (dg + 0 - 53) (-1074)) with (dg - 53) by lia.
  unfold shl_align. destruct (dg - 53 - 0) as [| k | k] eqn:Hk; try lia.
  - assert (dg = 53) as Hdg53 by lia. rewrite Hdg53 in *.
    rewrite binary_round_aux_finish, shr_fexp_53 by (done || lia).
    cbn [shr_record_of_loc shr_m loc_of_shr_record round_nearest_even].
    rewrite round_finish_53 by (cbn in *; lia).
    exists p, 0. cbn in *. split_and!; try done; lia.
  - assert (Hk' : Z.pos k = 53 - dg) by lia.
    assert (Hm : Z.pos (Pos.iter xO p k) = Z.pos p * 2 ^ (53 - dg))
      by (rewrite iter_xO; congruence).
    rewrite binary_round_aux_finish, shr_fexp_53
      by (try apply digits2_unique; lia).
    cbn [shr_record_of_loc shr_m loc_of_shr_record round_nearest_even].
    rewrite round_finish_53 by lia.
    exists (Pos.iter xO p k), (53 - dg).
    split_and!; try done; try lia. f_equal. lia.
Qed.

(** The quotient of two positive integers below [2^53], as [/] computes
    it: a normal double [m * 2^e].  In units of [2^-E] its value is the
    integer [W], within a relative error of [2^-53] of the exact
    quotient, and equal to it whenever the exact quotient is itself a
    double. *)
Lemma div_of_Z (a d : Z) :
  0 < a < 2 ^ 53 → 0 < d < 2 ^ 53 →
  ∃ m e W E,
    div (of_Z a) (of_Z d) = S754_finite false m e
    ∧ 2 ^ 52 ≤ Z.pos m < 2 ^ 53
    ∧ 0 < E ∧ 0 ≤ e + E
    ∧ W = Z.pos m * 2 ^ (e + E)
    ∧ Z.abs (W * d - a * 2 ^ E) * 2 ^ 53 ≤ a * 2 ^ E
    ∧ (∀ z, z * d = a * 2 ^ E → z < 2 ^ 53 ∨ Z.even z = true → W = z).
Proof.
  intros Ha Hd.
  destruct (of_Z_normal a Ha) as (mx & sa & -> & Hsa & Hmx & Hnx).
  destruct (of_Z_normal d Hd) as (my & sd & -> & Hsd & Hmy & Hny).
  destruct (SFdiv_normal mx my (- sa) (- sd) Hnx Hny ltac:(lia) ltac:(lia))
    as (m & e & W & -> & Hm & He & HW & Herr & Hexact).
  set (E := 53 + sa - sd).
  assert (HE : - sa - - sd - 53 = - E) by (subst E; lia).
  rewrite HE in *.
  assert (Hc : 0 < 2 ^ sd) by (apply Z.pow_pos_nonneg; lia).
  assert (HX : Z.pos mx * 2 ^ 53 = a * 2 ^ E * 2 ^ sd).
  { rewrite Hmx, <- !Z.mul_assoc, <- !Z.pow_add_r by lia.
    do 2 f_equal. subst E. lia. }
  exists m, e, W, E. split_and!; [done | lia | lia | lia | lia | | |].
  - rewrite HW. f_equal. f_equal. lia.
  - rewrite HX, Hmy in Herr.
    replace (W * (d * 2 ^ sd) - a * 2 ^ E * 2 ^ sd)
      with ((W * d - a * 2 ^ E) * 2 ^ sd) in Herr by ring.
    rewrite Z.abs_mul, (Z.abs_eq (2 ^ sd)) in Herr by lia.
    apply Z.mul_le_mono_pos_r with (2 ^ sd); [done |]. lia.
  - intros z Hz Hev. apply Hexact; [| done].
    rewrite HX, Hmy, <- Hz. ring.
Qed.

(** [nearest_scaled k m e] is [floor (k * m * 2^e + 1/2)]. *)
Lemma nearest_scaled_neg (k : Z) (m : positive) (e : Z) :
  e < 0 →
  2 * 2 ^ (- e) * nearest_scaled k m e ≤ 2 * k * Z.pos m + 2 ^ (- e)
  ∧ 2 * k * Z.pos m + 2 ^ (- e) < 2 * 2 ^ (- e) * (nearest_scaled k m e + 1).
Proof.
  intros He. unfold nearest_scaled.
  destruct (Z.leb_spec 0 e); [lia |].
  replace (- e + 1) with (Z.succ (- e)) by lia. rewrite Z.pow_succ_r by lia.
  assert (0 < 2 ^ (- e)) by (apply Z.pow_pos_nonneg; lia).
  assert (0 < 2 * 2 ^ (- e)) by lia.
  split.
  - by apply Z.mul_div_le.
  - rewrite Z.mul_add_distr_l, Z.mul_1_r.
    pose proof (Z.mod_pos_bound (2 * k * Z.pos m + 2 ^ (- e))
                  (2 * 2 ^ (- e)) ltac:(done)).
    pose proof (Z.div_mod (2 * k * Z.pos m + 2 ^ (- e))
                  (2 * 2 ^ (- e)) ltac:(lia)).
    lia.
Qed.

(** Rounding the computed quotient instead of the exact one lands on
    the same integer: an error of [2^-53], relative, cannot cross a
    half-integer multiple of [1/d]. *)
Lemma rounding_transfer (k a d W T N : Z) :
  0 < k → 0 < a → 0 < d → 0 < T → 2 * k * a < 2 ^ 53 →
  Z.abs (W * d - a * T) * 2 ^ 53 ≤ a * T →
  (2 * N - 1) * T ≤ 2 * k * W < (2 * N + 1) * T →
  (2 * N - 1) * d ≤ 2 * k * a ≤ (2 * N + 1) * d.
Proof.
  intros Hk Ha Hd HT Hsmall Herr [Hlo Hhi].
  assert (Hgap : 2 * k * (Z.abs (W * d - a * T) * 2 ^ 53) ≤ 2 * k * (a * T))
    by (apply Z.mul_le_mono_nonneg_l; lia).
  assert (HaT : 2 * k * (a * T) < 2 ^ 53 * T).
  { replace (2 * k * (a * T)) with (2 * k * a * T) by ring.
    apply Z.mul_lt_mono_pos_r; lia. }
  split.
  - destruct (Z.le_gt_cases ((2 * N - 1) * d) (2 * k * a)) as [| Hbad]; [done |].
    exfalso.
    assert ((2 * k * a + 1) * T ≤ (2 * N - 1) * d * T)
      by (apply Z.mul_le_mono_nonneg_r; lia).
    assert ((2 * N - 1) * T * d ≤ 2 * k * W * d)
      by (apply Z.mul_le_mono_nonneg_r; lia).
    assert (T ≤ 2 * k * (W * d - a * T)) by lia.
    assert (0 < W * d - a * T) by nia.
    rewrite Z.abs_eq in Hgap by lia. lia.
  - destruct (Z.le_gt_cases (2 * k * a) ((2 * N + 1) * d)) as [| Hbad]; [done |].
    exfalso.
    assert (((2 * N + 1) * d + 1) * T ≤ 2 * k * a * T)
      by (apply Z.mul_le_mono_nonneg_r; lia).
    assert (2 * k * W * d < (2 * N + 1) * T * d)
      by (apply Z.mul_lt_mono_pos_r; lia).
    assert (T ≤ 2 * k * (a * T - W * d)) by lia.
    assert (W * d - a * T < 0) by nia.
    rewrite Z.abs_neq in Hgap by lia. lia.
Qed.

(** The integer printed for [k] times the quotient [a / d]: the double
    quotient is normal and below 1e21, and rounding [k] times it gives an
    integer [N] nearest to [k * a / d]; for [k = 1] a tie goes up. *)
Lemma quotient_rounding (k a d : Z) :
  0 < k → 0 < a → 2 ≤ d < 2 ^ 53 → 2 * k * a < 2 ^ 53 →
  ∃ m e,
    div (of_Z a) (of_Z d) = S754_finite false m e
    ∧ e < 0 ∧ Z.pos m < 2 ^ 53
    ∧ (2 * nearest_scaled k m e - 1) * d ≤ 2 * k * a
    ∧ 2 * k * a ≤ (2 * nearest_scaled k m e + 1) * d
    ∧ (k = 1 → 2 * a < (2 * nearest_scaled k m e + 1) * d).
Proof.
  intros Hk Ha Hd Hsmall.
  destruct (div_of_Z a d ltac:(nia) ltac:(lia))
    as (m & e & W & E & Hdiv & Hm & HE & Hj & HW & Herr & Hexact).
  set (T := 2 ^ E) in *.
  assert (HT : 0 < T) by (apply Z.pow_pos_nonneg; lia).
  assert (He : e < 0).
  { destruct (Z.ltb_spec e 0); [done |]. exfalso.
    assert (0 < 2 ^ e) by (apply Z.pow_pos_nonneg; lia).
    assert (HWT : 2 ^ 52 * T ≤ W).
    { rewrite HW, Z.pow_add_r by lia. fold T.
      assert (2 ^ 52 * 1 ≤ Z.pos m * 2 ^ e) by (apply Z.mul_le_mono_nonneg; lia).
      replace (Z.pos m * (2 ^ e * T)) with (Z.pos m * 2 ^ e * T) by ring.
      apply Z.mul_le_mono_nonneg_r; lia. }
    assert (2 ^ 52 * T * 2 ≤ W * d) by (apply Z.mul_le_mono_nonneg; lia).
    assert (a * T < 2 ^ 52 * T) by (apply Z.mul_lt_mono_pos_r; nia).
    lia. }
  pose proof (nearest_scaled_neg k m e He) as [Hlo Hhi].
  set (N := nearest_scaled k m e) in *.
  set (c := 2 ^ (e + E)) in *.
  assert (Hc : 0 < c) by (apply Z.pow_pos_nonneg; lia).
  assert (HTc : T = 2 ^ (- e) * c).
  { subst T c. rewrite <- Z.pow_add_r by lia. f_equal. lia. }
  assert (HN : (2 * N - 1) * T ≤ 2 * k * W < (2 * N + 1) * T).
  { rewrite HTc, HW. split.
    - replace ((2 * N - 1) * (2 ^ (- e) * c))
        with ((2 * 2 ^ (- e) * N - 2 ^ (- e)) * c) by ring.
      replace (2 * k * (Z.pos m * c)) with (2 * k * Z.pos m * c) by ring.
      apply Z.mul_le_mono_nonneg_r; lia.
    - replace ((2 * N + 1) * (2 ^ (- e) * c))
        with ((2 * 2 ^ (- e) * (N + 1) - 2 ^ (- e)) * c) by ring.
      replace (2 * k * (Z.pos m * c)) with (2 * k * Z.pos m * c) by ring.
      apply Z.mul_lt_mono_pos_r; lia. }
  destruct (rounding_transfer k a d W T N) as [Hge Hle]; try done; try lia.
  exists m, e. split_and!; [done | done | lia | done | done |].
  intros ->.
  destruct (Z.eq_dec (2 * 1 * a) ((2 * N + 1) * d)) as [Htie | ?]; [| lia].
  exfalso.
  assert (HNpos : 0 ≤ N) by nia.
  assert (Hz : (2 * N + 1) * 2 ^ (E - 1) * d = a * T).
  { subst T. replace E with (E - 1 + 1) at 2 by lia.
    rewrite Z.pow_add_r by lia. nia. }
  assert (HWz : W = (2 * N + 1) * 2 ^ (E - 1)).
  { apply Hexact; [done |].
    destruct (Z.eq_dec E 1) as [-> | HE1].
    - left. cbn. nia.
    - right. rewrite Z.even_mul. apply orb_true_iff. right.
      replace (E - 1) with (Z.succ (E - 2)) by lia.
      rewrite Z.pow_succ_r, Z.even_mul by lia. reflexivity. }
  assert (2 * W = (2 * N + 1) * T).
  { rewrite HWz. subst T. replace E with (E - 1 + 1) at 2 by lia.
    rewrite Z.pow_add_r by lia. ring. }
  lia.
Qed.

Lemma ge_1e21_small (m : positive) (e : Z) :
  Z.pos m < 2 ^ 53 → e ≤ 0 → ge_1e21 m e = false.
Proof.
  intros Hm He. unfold ge_1e21.
  destruct (Z.leb_spec 0 e).
  - assert (e = 0) as -> by lia. apply Z.leb_gt. lia.
  - apply Z.leb_gt.
    assert (0 < 2 ^ (- e)) by (apply Z.pow_pos_nonneg; lia). nia.
Qed.

Variable Number_toString_host : number → string.

(** Printing the double of a small non-negative integer prints the
    integer; the zero case is the [+0] that [Math.round] and [/] yield
    there. *)
Lemma Number_toString_integer (n : Z) :
  0 ≤ n < 2 ^ 53 →
  Number_toString Number_toString_host
    (if n =? 0 then S754_zero false else of_Z n) = string_of_Z n.
Proof.
  intros Hn. destruct (Z.eqb_spec n 0) as [-> | Hn0]; [reflexivity |].
  destruct (of_Z_normal n ltac:(lia)) as (m & s & -> & Hs & Hm & Hnorm).
  unfold Number_toString.
  assert (Hp : 0 < 2 ^ s) by (apply Z.pow_pos_nonneg; lia).
  assert (Hint : is_integral m (- s) = true).
  { unfold is_integral. destruct (Z.leb_spec 0 (- s)); [done |].
    rewrite Z.opp_involutive, Hm, Z.mod_mul by lia. reflexivity. }
  assert (Hval : integral_value m (- s) = n).
  { unfold integral_value. destruct (Z.leb_spec 0 (- s)).
    - assert (s = 0) as -> by lia. cbn in *. lia.
    - rewrite Z.opp_involutive, Hm, Z.div_mul by lia. reflexivity. }
  rewrite Hint, ge_1e21_small, Hval by lia. reflexivity.
Qed.

(** [(a / d).toFixed(f)] on integers: the digits of the integer nearest
    to [10^f * a / d]. *)
Lemma toFixed_quotient (a d : Z) (f : nat) :
  0 < a → 2 ≤ d < 2 ^ 53 → 2 * 10 ^ Z.of_nat f * a < 2 ^ 53 →
  ∃ n, toFixed Number_toString_host (div (of_Z a) (of_Z d)) f
       = fixed_digits n f
       ∧ (2 * n - 1) * d ≤ 2 * 10 ^ Z.of_nat f * a
       ∧ 2 * 10 ^ Z.of_nat f * a ≤ (2 * n + 1) * d
       ∧ (f = 0%nat → 2 * a < (2 * n + 1) * d).
Proof.
  intros Ha Hd Hsmall.
  assert (Hk : 0 < 10 ^ Z.of_nat f) by (apply Z.pow_pos_nonneg; lia).
  destruct (quotient_rounding (10 ^ Z.of_nat f) a d Hk Ha Hd Hsmall)
    as (m & e & -> & He & Hm & Hlo & Hhi & Htie).
  exists (nearest_scaled (10 ^ Z.of_nat f) m e).
  split_and!; [| done | done |].
  - unfold toFixed. by rewrite ge_1e21_small by lia.
  - intros ->. by apply Htie.
Qed.

(** [Math.round(a / d)] on integers, printed: [floor (a / d + 1/2)]. *)
Lemma Math_round_quotient (a d : Z) :
  0 < a < 2 ^ 52 → 2 ≤ d < 2 ^ 53 →
  ∃ n, Number_toString Number_toString_host
         (Math_round (div (of_Z a) (of_Z d))) = string_of_Z n
       ∧ (2 * n - 1) * d ≤ 2 * a < (2 * n + 1) * d.
Proof.
  intros Ha Hd.
  destruct (quotient_rounding 1 a d ltac:(lia) ltac:(lia) Hd ltac:(lia))
    as (m & e & -> & He & Hm & Hlo & Hhi & Htie).
  set (n := nearest_scaled 1 m e) in *.
  exists n. split; [| lia].
  unfold Math_round. destruct (Z.leb_spec 0 e); [lia |]. fold n.
  apply Number_toString_integer. split; [nia |].
  destruct (Z.le_gt_cases n 0); [lia |].
  assert ((2 * n - 1) * 2 ≤ (2 * n - 1) * d)
    by (apply Z.mul_le_mono_nonneg_l; lia).
  lia.
Qed.

(** The nearest integer to [a / d], the larger one on a tie, is
    [floor ((2 a + d) / (2 d))]. *)
Lemma round_half_up_unique (a d n : Z) :
  0 < d → (2 * n - 1) * d ≤ 2 * a < (2 * n + 1) * d →
  n = (2 * a + d) / (2 * d).
Proof.
  intros Hd [Hlo Hhi]. apply Z.div_unique with (2 * a + d - 2 * d * n); lia.
Qed.

End Binary64.

(** ** Price formatting *)

Lemma fixed_digits_0 (n : Z) : JSNumber.fixed_digits n 0 = string_of_Z n.
Proof. reflexivity. Qed.

Lemma formatPrice_one_decimal host (price unit : Z) :
  0 < price ≤ 10 ^ 14 → 2 ≤ unit < 2 ^ 53 →
  ∃ n, 0 ≤ n
       ∧ nearest_tenth price unit n
       ∧ JSNumber.toFixed host
           (JSNumber.div (JSNumber.of_Z price) (JSNumber.of_Z unit)) 1
         = one_decimal n.
Proof.
  intros Hp Hu.
  destruct (toFixed_quotient host price unit 1 ltac:(lia) Hu)
    as (n & Heq & Hlo & Hhi & _); [cbn; lia |].
  change (10 ^ Z.of_nat 1) with 10 in *.
  assert (Hn : 0 ≤ n) by nia.
  exists n. split_and!; [done | unfold nearest_tenth; lia |].
  rewrite Heq. by apply fixed_digits_1.
Qed.

Lemma formatPrice_no_decimal host (price unit : Z) :
  0 ≤ price ≤ 10 ^ 14 → 2 ≤ unit < 2 ^ 53 →
  JSNumber.toFixed host
    (JSNumber.div (JSNumber.of_Z price) (JSNumber.of_Z unit)) 0
  = string_of_Z (round_half_up price unit).
Proof.
  intros Hp Hu. destruct (Z.eq_dec price 0) as [-> | Hne].
  - destruct (of_Z_normal unit ltac:(lia)) as (m & s & -> & _).
    unfold round_half_up. rewrite Z.div_small by lia. reflexivity.
  - destruct (toFixed_quotient host price unit 0 ltac:(lia) Hu)
      as (n & -> & Hlo & Hhi & Htie); [cbn; lia |].
    change (10 ^ Z.of_nat 0) with 1 in *.
    rewrite fixed_digits_0. f_equal.
    apply round_half_up_unique; [lia |]. specialize (Htie eq_refl). lia.
Qed.

Lemma formatPrice_round host (price unit : Z) :
  0 ≤ price ≤ 10 ^ 14 → 2 ≤ unit < 2 ^ 53 →
  JSNumber.Number_toString host
    (JSNumber.Math_round
       (JSNumber.div (JSNumber.of_Z price) (JSNumber.of_Z unit)))
  = string_of_Z (round_half_up price unit).
Proof.
  intros Hp Hu. destruct (Z.eq_dec price 0) as [-> | Hne].
  - destruct (of_Z_normal unit ltac:(lia)) as (m & s & -> & _).
    unfold round_half_up. rewrite Z.div_small by lia. reflexivity.
  - destruct (Math_round_quotient host price unit ltac:(lia) Hu)
      as (n & -> & Hn).
    f_equal. apply round_half_up_unique; [lia | done].
Qed.

(** C6. [formatPrice] on a whole amount up to 10^14.  Rent: from
    100,000 the amount in units of 100,000 to one decimal, then "L";
    below, the amount in thousands rounded to a whole number, then "K".
    Purchase: from 10,000,000 the amount in units of 10,000,000 to one
    decimal, then "Cr"; below, the amount in units of 100,000 rounded to
    a whole number, then "L".  All after "₹"; and the four sample
    values. *)
Theorem formatPrice_contract
    (host : JSNumber.number → string) (price : Z) :
  0 ≤ price ≤ 10 ^ 14 →
  (100000 ≤ price →
   ∃ n, 0 ≤ n
        ∧ nearest_tenth price 100000 n
        ∧ PriceBadge.formatPrice host price true
          = "₹" +:+ one_decimal n +:+ "L")
  ∧ (price < 100000 →
     PriceBadge.formatPrice host price true
     = "₹" +:+ string_of_Z (round_half_up price 1000) +:+ "K")
  ∧ (10000000 ≤ price →
     ∃ n, 0 ≤ n
          ∧ nearest_tenth price 10000000 n
          ∧ PriceBadge.formatPrice host price false
            = "₹" +:+ one_decimal n +:+ "Cr")
  ∧ (price < 10000000 →
     PriceBadge.formatPrice host price false
     = "₹" +:+ string_of_Z (round_half_up price 100000) +:+ "L")
  ∧ PriceBadge.formatPrice host 5000000 false = "₹50L"
  ∧ PriceBadge.formatPrice host 125000000 false = "₹12.5Cr"
  ∧ PriceBadge.formatPrice host 25000 true = "₹25K"
  ∧ PriceBadge.formatPrice host 150000 true = "₹1.5L".
Proof.
  intros Hp.
  split_and!; [| | | | by vm_compute ..]; unfold PriceBadge.formatPrice.
  - intros Hge. rewrite Z.geb_leb.
    destruct (Z.leb_spec 100000 price); [| lia].
    destruct (formatPrice_one_decimal host price 100000)
      as (n & Hn & Hnear & ->); [lia | lia |]. eauto.
  - intros Hlt. rewrite Z.geb_leb.
    destruct (Z.leb_spec 100000 price); [lia |].
    by rewrite formatPrice_round by lia.
  - intros Hge. rewrite Z.geb_leb.
    destruct (Z.leb_spec 10000000 price); [| lia].
    destruct (formatPrice_one_decimal host price 10000000)
      as (n & Hn & Hnear & ->); [lia | lia |]. eauto.
  - intros Hlt. rewrite Z.geb_leb.
    destruct (Z.leb_spec 10000000 price); [lia |].
    by rewrite formatPrice_no_decimal by lia.
Qed.

(** On a tie the digits follow the double, as in any JS engine: 1.25 is
    a double and goes up, 1.15 and 1.05 are not, and the doubles that
    stand for them lie below and above the tie. *)
Example formatPrice_ties host :
  PriceBadge.formatPrice host 125000 true = "₹1.3L"
  ∧ PriceBadge.formatPrice host 115000 true = "₹1.1L"
  ∧ PriceBadge.formatPrice host 105000 true = "₹1.1L"
  ∧ PriceBadge.formatPrice host 99500 true = "₹100K"
  ∧ PriceBadge.formatPrice host 9950000 false = "₹100L"
  ∧ PriceBadge.formatPrice host 0 false = "₹0L".
Proof. by vm_compute. Qed.

Lemma formatPrice_contract_witness :
  PriceBadge.formatPrice AsciiHost.Number_toString_host 9950000 false
  = "₹100L"%string
  ∧ PriceBadge.formatPrice AsciiHost.Number_toString_host 99499 true
    = "₹99K"%string
  ∧ ∃ n, 0 ≤ n
         ∧ nearest_tenth 115000 100000 n
         ∧ PriceBadge.formatPrice AsciiHost.Number_toString_host 115000 true
           = "₹" +:+ one_decimal n +:+ "L".
Proof.
  destruct (formatPrice_contract AsciiHost.Number_toString_host 9950000
              ltac:(lia)) as (_ & _ & _ & Hbuy & _).
  destruct (formatPrice_contract AsciiHost.Number_toString_host 99499
              ltac:(lia)) as (_ & Hrent & _).
  destruct (formatPrice_contract AsciiHost.Number_toString_host 115000
              ltac:(lia)) as (Hlakh & _).
  split; [rewrite Hbuy by lia; reflexivity |].
  split; [rewrite Hrent by lia; reflexivity |].
  apply Hlakh. lia.
Defined.
